(** * Eleven Clone backend: a shallow embedding of [main.py] and
    [setup_database.py], and the properties of its authentication flow.

    The handlers of [main.py] are pure functions over an explicit database
    state.  What the handlers obtain from the outside world at run time (the
    clock, the bcrypt salt, the ObjectId the driver generates) is passed in as
    an argument.  The third-party primitives (bcrypt, python-jose) are
    operations of an interface; their contracts are separate classes of laws,
    assumed only by the theorems that need them. *)

From Stdlib Require Import String Ascii List ZArith NArith Lia Bool.
From Stdlib.Strings Require Import Byte.
Import ListNotations.
Open Scope string_scope.
Open Scope Z_scope.
Set Warnings "-register-all".

(** ** Python strings *)

(** Lower-casing of the letters A to Z: what [str.lower()] does to ASCII
    text, such as the hexadecimal text of an ObjectId.  [lang.lower()] of
    the audio route is [str_lower], below. *)
Definition lower_ascii (c : ascii) : ascii :=
  let n := nat_of_ascii c in
  if ((65 <=? n) && (n <=? 90))%nat then ascii_of_nat (n + 32) else c.

Fixpoint lower (s : string) : string :=
  match s with
  | EmptyString => EmptyString
  | String c r => String (lower_ascii c) (lower r)
  end.

(** ** bson.ObjectId

    An ObjectId is twelve bytes; [str(oid)] is their hexadecimal rendering and
    [ObjectId(s)] reads the strings of 24 hexadecimal digits.  Every other
    string is [InvalidId] here; of those, bson lets through the 24-character
    strings in which blanks stand between digit pairs, as ids of fewer than
    twelve bytes, which no stored document has. *)

Definition ObjectId := list byte.

Definition hexdigit (n : N) : ascii :=
  match n with
  | 0%N => "0" | 1%N => "1" | 2%N => "2" | 3%N => "3"
  | 4%N => "4" | 5%N => "5" | 6%N => "6" | 7%N => "7"
  | 8%N => "8" | 9%N => "9" | 10%N => "a" | 11%N => "b"
  | 12%N => "c" | 13%N => "d" | 14%N => "e" | _ => "f"
  end%char.

Definition unhex (c : ascii) : option N :=
  let n := N_of_ascii c in
  if ((48 <=? n) && (n <=? 57))%N then Some (n - 48)%N
  else if ((97 <=? n) && (n <=? 102))%N then Some (n - 87)%N
  else if ((65 <=? n) && (n <=? 70))%N then Some (n - 55)%N
  else None.

Fixpoint hexlify (bs : list byte) : string :=
  match bs with
  | [] => EmptyString
  | b :: r =>
      String (hexdigit (Byte.to_N b / 16))
        (String (hexdigit (Byte.to_N b mod 16)) (hexlify r))
  end.

Fixpoint fromhex (s : string) : option (list byte) :=
  match s with
  | EmptyString => Some []
  | String c1 (String c2 r) =>
      match unhex c1, unhex c2, fromhex r with
      | Some h, Some l, Some bs =>
          match Byte.of_N (16 * h + l) with
          | Some b => Some (b :: bs)
          | None => None
          end
      | _, _, _ => None
      end
  | String _ EmptyString => None
  end.

(** [str(oid)] *)
Definition ObjectId_str (o : ObjectId) : string := hexlify o.

(** [ObjectId(s)]; [None] stands for [bson.errors.InvalidId]. *)
Definition ObjectId_of_str (s : string) : option ObjectId :=
  if (String.length s =? 24)%nat then fromhex s else None.

Definition ObjectId_valid (o : ObjectId) : Prop := List.length o = 12%nat.

Definition ObjectId_eqb (a b : ObjectId) : bool :=
  if list_eq_dec Byte.byte_eq_dec a b then true else false.

(** ** Documents

    The values the application stores or signs.  A [datetime] is its number of
    microseconds since the epoch. *)

Inductive Value : Type :=
| VNull
| VStr (s : string)
| VInt (n : Z)
| VDate (t : Z)
| VDoc (d : list (string * Value)).

(** A Python [dict] with string keys, in insertion order. *)
Definition Doc := list (string * Value).

Fixpoint Value_eqb (a b : Value) {struct a} : bool :=
  match a, b with
  | VNull, VNull => true
  | VStr s, VStr t => String.eqb s t
  | VInt n, VInt m => Z.eqb n m
  | VDate t, VDate u => Z.eqb t u
  | VDoc d, VDoc e =>
      (fix go (d e : list (string * Value)) {struct d} : bool :=
         match d, e with
         | [], [] => true
         | (k, v) :: d', (k', v') :: e' =>
             String.eqb k k' && Value_eqb v v' && go d' e'
         | _, _ => false
         end) d e
  | _, _ => false
  end.

(** [d.get(k)]; [None] when the key is missing. *)
Fixpoint doc_get (d : Doc) (k : string) : option Value :=
  match d with
  | [] => None
  | (k', v) :: r => if String.eqb k' k then Some v else doc_get r k
  end.

(** [d.get(k, default)] *)
Definition doc_get_default (d : Doc) (k : string) (default : Value) : Value :=
  match doc_get d k with
  | Some v => v
  | None => default
  end.

(** [d[k] = v]: an existing key keeps its place, a new key goes last. *)
Fixpoint doc_set (d : Doc) (k : string) (v : Value) : Doc :=
  match d with
  | [] => [(k, v)]
  | (k', w) :: r =>
      if String.eqb k' k then (k, v) :: r else (k', w) :: doc_set r k v
  end.

Definition doc_keys (d : Doc) : list string := map fst d.

(** The value at a dotted path such as [personalDetails.email], given as the
    list of its components. *)
Fixpoint path_get (d : Doc) (p : list string) : option Value :=
  match p with
  | [] => None
  | [k] => doc_get d k
  | k :: p' =>
      match doc_get d k with
      | Some (VDoc d') => path_get d' p'
      | _ => None
      end
  end.

Definition opt_Value_eqb (a b : option Value) : bool :=
  match a, b with
  | None, None => true
  | Some x, Some y => Value_eqb x y
  | _, _ => false
  end.

(** BSON stores a datetime with millisecond precision. *)
Fixpoint bson_value (v : Value) : Value :=
  match v with
  | VDate t => VDate (t / 1000 * 1000)
  | VDoc d => VDoc (map (fun kv => (fst kv, bson_value (snd kv))) d)
  | _ => v
  end.

Definition bson_doc (d : Doc) : Doc :=
  map (fun kv => (fst kv, bson_value (snd kv))) d.

(** ** The document store

    Every write of this application is an [insert_one] of a [dict] without an
    [_id], so every stored document carries an ObjectId generated by the
    driver.  A stored document is never an empty [dict]: the handlers' tests
    [if existing], [if not user_doc], [if not profile], [if not audio_doc] and
    [if user is None] all ask whether [find_one] returned a document. *)

Record Document : Type := { doc_id : ObjectId; doc_fields : Doc }.

(** A collection: its documents in insertion order and the key paths of its
    unique indexes. *)
Record Collection : Type :=
  { documents : list Document; unique_indexes : list (list string) }.

Record DB : Type :=
  { users : Collection;
    onboarding_profiles : Collection;
    audio_urls : Collection }.

Definition empty_collection : Collection :=
  {| documents := []; unique_indexes := [] |}.

Definition empty_db : DB :=
  {| users := empty_collection;
     onboarding_profiles := empty_collection;
     audio_urls := empty_collection |}.

(** Exceptions that no handler catches; the framework answers them with a
    500. *)
Inductive Exc : Type :=
| InvalidId
| DuplicateKeyError
| KeyError (k : string)
| TypeError
| AttributeError
| ValidationError
| ValueError.

(** The query filters the handlers use: [{"_id": oid}] and [{k: v}]. *)
Inductive Filter : Type :=
| ById (o : ObjectId)
| ByField (k : string) (v : Value).

Definition matches (q : Filter) (d : Document) : bool :=
  match q with
  | ById o => ObjectId_eqb (doc_id d) o
  | ByField k v =>
      match doc_get (doc_fields d) k with
      | Some w => Value_eqb w v
      | None => false
      end
  end.

Definition find_one (c : Collection) (q : Filter) : option Document :=
  find (matches q) (documents c).

(** Two documents collide on an index when they hold equal values at its key
    path; a missing field is indexed as null. *)
Definition same_key (p : list string) (a b : Doc) : bool :=
  opt_Value_eqb (path_get a p) (path_get b p).

Definition violates_unique (c : Collection) (d : Doc) : bool :=
  existsb
    (fun p => existsb (fun x => same_key p (doc_fields x) d) (documents c))
    (unique_indexes c).

(** [insert_one(document)]: the driver adds the generated [_id], the server
    rejects a duplicate [_id] or a duplicate key of a unique index, and
    otherwise appends the document.  Returns [inserted_id]. *)
Definition insert_one (c : Collection) (oid : ObjectId) (d : Doc)
  : Exc + (ObjectId * Collection) :=
  let stored := bson_doc d in
  if existsb (fun x => ObjectId_eqb (doc_id x) oid) (documents c) then
    inl DuplicateKeyError
  else if violates_unique c stored then inl DuplicateKeyError
  else
    inr (oid,
         {| documents := documents c ++ [{| doc_id := oid; doc_fields := stored |}];
            unique_indexes := unique_indexes c |}).

Fixpoint distinct_keys (p : list string) (ds : list Document) : bool :=
  match ds with
  | [] => true
  | d :: r =>
      negb (existsb (fun x => same_key p (doc_fields x) (doc_fields d)) r)
      && distinct_keys p r
  end.

(** [create_index(key, unique=...)]: building a unique index fails when the
    collection already holds two documents with the same key; an index that
    is not unique changes no result. *)
Definition create_index (c : Collection) (p : list string) (unique : bool)
  : Exc + Collection :=
  if unique then
    if distinct_keys p (documents c) then
      inr {| documents := documents c;
             unique_indexes :=
               if existsb (fun q => if list_eq_dec string_dec q p then true else false)
                          (unique_indexes c)
               then unique_indexes c else unique_indexes c ++ [p] |}
    else inl DuplicateKeyError
  else inr c.

(** ** Outcomes of a handler *)

Record HTTPException : Type :=
  { status_code : Z; detail : string; headers : list (string * string) }.

Inductive Result (A : Type) : Type :=
| Return (a : A)
| RaiseHTTP (e : HTTPException)
| Raise (e : Exc).
Arguments Return {A} a.
Arguments RaiseHTTP {A} e.
Arguments Raise {A} e.

Definition bind {A B : Type} (r : Result A) (k : A -> Result B) : Result B :=
  match r with
  | Return a => k a
  | RaiseHTTP e => RaiseHTTP e
  | Raise e => Raise e
  end.

Notation "x <- r ;; k" := (bind r (fun x => k))
  (at level 61, r at next level, right associativity).

(** The status line the client sees. *)
Definition http_status {A : Type} (r : Result A) : Z :=
  match r with
  | Return _ => 200
  | RaiseHTTP e => status_code e
  | Raise _ => 500
  end.

Definition is_success {A : Type} (r : Result A) : bool :=
  match r with Return _ => true | _ => false end.

(** [d[k]] *)
Definition getitem (d : Doc) (k : string) : Result Value :=
  match doc_get d k with
  | Some v => Return v
  | None => Raise (KeyError k)
  end.

(** A [str] field of a response model accepts a string only. *)
Definition as_str (v : Value) : Result string :=
  match v with
  | VStr s => Return s
  | _ => Raise ValidationError
  end.

(** ** Third-party primitives *)

(** [bcrypt]: [hashpw(password, salt)] and [checkpw(password, hashed)].  The
    salt of [gensalt()] is random and is an input of [signup].  Both raise
    [ValueError], which is [None] here: [hashpw] on a password it does not
    take (one of more than 72 bytes), [checkpw] on such a password or on a
    stored string that is not a digest. *)
Class Bcrypt : Type :=
  { hashpw : string -> string -> option string;
    checkpw : string -> string -> option bool }.

(** [str.lower()], which lower-cases every cased letter, not the ASCII ones
    only. *)
Class PyStr : Type :=
  { str_lower : string -> string }.

(** pydantic's [EmailStr]: the validation of an email field when the request
    model is built.  [None] is a validation error (the request is answered
    with a 422 and the handler does not run); otherwise the result is the
    normalized address, whose domain is in lower case. *)
Class Pydantic : Type :=
  { EmailStr : string -> option string }.

(** The errors of python-jose that [except JWTError] catches. *)
Inductive JWTError : Type :=
| BadSignature
| Malformed
| ExpiredSignatureError
| JWTClaimsError.

(** [jose.jwt]: [encode(claims, key, algorithm)] and
    [decode(token, key, algorithms)]; [decode] reads the clock, which is its
    last argument here. *)
Class Jose : Type :=
  { jwt_encode : Doc -> string -> string -> string;
    jwt_decode : string -> string -> list string -> Z -> JWTError + Doc }.

(** [datetime.isoformat()] *)
Class Datetime : Type :=
  { isoformat : Z -> string }.

(** [timedelta(minutes=n)], in microseconds. *)
Definition timedelta_minutes (n : Z) : Z := n * 60 * 1000000.

(** The whole seconds since the epoch of a [datetime], as a JWT carries
    them. *)
Definition timegm (t : Z) : Z := t / 1000000.

(** ** Configuration, read from the environment at start-up

    The process is taken to be started with [JWT_SECRET_KEY] set, as signing
    needs it; [JWT_ALGORITHM] and [JWT_ACCESS_TOKEN_EXPIRE_MINUTES] (already
    read as a number here) have defaults. *)

Record Environ : Type :=
  { env_JWT_SECRET_KEY : string;
    env_JWT_ALGORITHM : option string;
    env_JWT_ACCESS_TOKEN_EXPIRE_MINUTES : option Z }.

Record Config : Type :=
  { JWT_SECRET_KEY : string;
    JWT_ALGORITHM : string;
    JWT_ACCESS_TOKEN_EXPIRE_MINUTES : Z }.

Definition getenv {A : Type} (v : option A) (default : A) : A :=
  match v with Some x => x | None => default end.

Definition load_config (e : Environ) : Config :=
  {| JWT_SECRET_KEY := env_JWT_SECRET_KEY e;
     JWT_ALGORITHM := getenv (env_JWT_ALGORITHM e) "HS256";
     JWT_ACCESS_TOKEN_EXPIRE_MINUTES :=
       getenv (env_JWT_ACCESS_TOKEN_EXPIRE_MINUTES e) 30 |}.

(** ** Request and response models *)

Module AudioResponse.
Record t : Type :=
  { language : string; audioUrl : string;
    createdAt : string; updatedAt : string }.
End AudioResponse.

Module PersonalDetails.
Record t : Type := { name : string; age : Z; email : string }.
End PersonalDetails.

Module OnboardingData.
Record t : Type :=
  { theme : string;
    personalDetails : PersonalDetails.t;
    referralSource : string;
    persona : string;
    pricingPlan : string }.
End OnboardingData.

Module OnboardingResponse.
Record t : Type := { message : string; userId : string; status : string }.
End OnboardingResponse.

Module UserSignup.
Record t : Type := { email : string; password : string; name : string }.

(** The model built from the strings of the request body: [email] goes
    through [EmailStr]. *)
Definition validate {pydantic : Pydantic}
    (raw_email raw_password raw_name : string) : option t :=
  match EmailStr raw_email with
  | Some e => Some {| email := e; password := raw_password; name := raw_name |}
  | None => None
  end.
End UserSignup.

Module UserLogin.
Record t : Type := { email : string; password : string }.

Definition validate {pydantic : Pydantic} (raw_email raw_password : string)
  : option t :=
  match EmailStr raw_email with
  | Some e => Some {| email := e; password := raw_password |}
  | None => None
  end.
End UserLogin.

Module Token.
Record t : Type :=
  { access_token : string;
    token_type : string;
    user_id : string;
    name : string;
    email : string }.

(** The JSON object the response model is serialized to. *)
Definition to_json (tok : t) : Doc :=
  [ ("access_token", VStr (access_token tok));
    ("token_type", VStr (token_type tok));
    ("user_id", VStr (user_id tok));
    ("name", VStr (name tok));
    ("email", VStr (email tok)) ].
End Token.

(** ** The handlers of [main.py] *)

Section Handlers.
Context {bcrypt : Bcrypt} {jose : Jose} {datetime : Datetime}
  {pystr : PyStr} {pydantic : Pydantic}.
Variable cfg : Config.

(** *** JWT utilities *)

(** The [to_encode] dictionary of [create_access_token] once the expiry is
    set.  [if expires_delta:] is a truth test: it fails for [None] and for a
    zero [timedelta]. *)
Definition token_claims (data : Doc) (expires_delta : option Z) (now : Z)
  : Doc :=
  let to_encode := data in
  let expire :=
    match expires_delta with
    | Some delta =>
        if negb (delta =? 0) then now + delta
        else now + timedelta_minutes (JWT_ACCESS_TOKEN_EXPIRE_MINUTES cfg)
    | None => now + timedelta_minutes (JWT_ACCESS_TOKEN_EXPIRE_MINUTES cfg)
    end in
  doc_set to_encode "exp" (VDate expire).

Definition create_access_token (data : Doc) (expires_delta : option Z)
    (now : Z) : string :=
  jwt_encode (token_claims data expires_delta now)
             (JWT_SECRET_KEY cfg) (JWT_ALGORITHM cfg).

Definition credentials_exception : HTTPException :=
  {| status_code := 401;
     detail := "Could not validate credentials";
     headers := [("WWW-Authenticate", "Bearer")] |}.

(** [ObjectId(user_id)] stands outside the [try] block: what it raises is
    not turned into [credentials_exception]. *)
Definition get_current_user (db : DB) (credentials : string) (now : Z)
  : Result Document :=
  match jwt_decode credentials (JWT_SECRET_KEY cfg) [JWT_ALGORITHM cfg] now with
  | inl _ => RaiseHTTP credentials_exception
  | inr payload =>
      match doc_get payload "sub" with
      | None | Some VNull => RaiseHTTP credentials_exception
      | Some (VStr user_id) =>
          match ObjectId_of_str user_id with
          | None => Raise InvalidId
          | Some oid =>
              match find_one (users db) (ById oid) with
              | None => RaiseHTTP credentials_exception
              | Some user => Return user
              end
          end
      | Some _ => Raise TypeError
      end
  end.

(** *** Root and health *)

Definition root : Doc := [("message", VStr "Eleven Clone API is running!")].

Definition health_check (now : Z) : Doc :=
  [("status", VStr "healthy"); ("timestamp", VStr (isoformat now))].

(** *** Audio routes *)

Definition get_audio_url (db : DB) (lang : string)
  : Result AudioResponse.t :=
  match find_one (audio_urls db) (ByField "language" (VStr (str_lower lang))) with
  | None =>
      RaiseHTTP {| status_code := 404;
                   detail := "Audio URL not found for language: " ++ lang;
                   headers := [] |}
  | Some audio_doc =>
      let d := doc_fields audio_doc in
      language <- getitem d "language" ;;
      url <- getitem d "url" ;;
      let createdAt := doc_get_default d "createdAt" (VStr "") in
      let updatedAt := doc_get_default d "updatedAt" (VStr "") in
      language <- as_str language ;;
      url <- as_str url ;;
      createdAt <- as_str createdAt ;;
      updatedAt <- as_str updatedAt ;;
      Return {| AudioResponse.language := language;
                AudioResponse.audioUrl := url;
                AudioResponse.createdAt := createdAt;
                AudioResponse.updatedAt := updatedAt |}
  end.

(** *** Onboarding routes *)

Definition profile_doc (data : OnboardingData.t) (now1 now2 : Z) : Doc :=
  let pd := OnboardingData.personalDetails data in
  [ ("theme", VStr (OnboardingData.theme data));
    ("personalDetails",
      VDoc [ ("name", VStr (PersonalDetails.name pd));
             ("age", VInt (PersonalDetails.age pd));
             ("email", VStr (PersonalDetails.email pd)) ]);
    ("referralSource", VStr (OnboardingData.referralSource data));
    ("persona", VStr (OnboardingData.persona data));
    ("pricingPlan", VStr (OnboardingData.pricingPlan data));
    ("createdAt", VStr (isoformat now1));
    ("updatedAt", VStr (isoformat now2)) ].

Definition create_onboarding_profile (db : DB) (data : OnboardingData.t)
    (now1 now2 : Z) (oid : ObjectId)
  : Result OnboardingResponse.t * DB :=
  match insert_one (onboarding_profiles db) oid (profile_doc data now1 now2) with
  | inl e => (Raise e, db)
  | inr (inserted_id, c) =>
      (Return {| OnboardingResponse.message :=
                   "Onboarding profile created successfully";
                 OnboardingResponse.userId := ObjectId_str inserted_id;
                 OnboardingResponse.status := "success" |},
       {| users := users db;
          onboarding_profiles := c;
          audio_urls := audio_urls db |})
  end.

(** [ObjectId(user_id)] is not guarded: an [InvalidId] reaches the
    framework. *)
Definition get_onboarding_profile (db : DB) (user_id : string)
  : Result Doc :=
  match ObjectId_of_str user_id with
  | None => Raise InvalidId
  | Some oid =>
      match find_one (onboarding_profiles db) (ById oid) with
      | None =>
          RaiseHTTP {| status_code := 404;
                       detail := "Profile not found";
                       headers := [] |}
      | Some profile =>
          Return (("_id", VStr (ObjectId_str (doc_id profile)))
                    :: doc_fields profile)
      end
  end.

(** *** Auth routes *)

Definition user_already_exists : HTTPException :=
  {| status_code := 400; detail := "User already exists"; headers := [] |}.

Definition user_doc_of (user : UserSignup.t) (hashed_pw : string) (now : Z)
  : Doc :=
  [ ("email", VStr (UserSignup.email user));
    ("name", VStr (UserSignup.name user));
    ("password", VStr hashed_pw);
    ("createdAt", VDate now) ].

Definition signup (db : DB) (user : UserSignup.t)
    (salt : string) (now : Z) (oid : ObjectId)
  : Result Doc * DB :=
  match find_one (users db) (ByField "email" (VStr (UserSignup.email user))) with
  | Some _ => (RaiseHTTP user_already_exists, db)
  | None =>
      match hashpw (UserSignup.password user) salt with
      | None => (Raise ValueError, db)
      | Some hashed_pw =>
          let user_doc := user_doc_of user hashed_pw now in
          match insert_one (users db) oid user_doc with
          | inl e => (Raise e, db)
          | inr (inserted_id, c) =>
              (Return [ ("message", VStr "User created successfully");
                        ("userId", VStr (ObjectId_str inserted_id)) ],
               {| users := c;
                  onboarding_profiles := onboarding_profiles db;
                  audio_urls := audio_urls db |})
          end
      end
  end.

Definition invalid_email_or_password : HTTPException :=
  {| status_code := 401;
     detail := "Invalid email or password";
     headers := [] |}.

(** [user_doc["password"].encode("utf-8")] needs a string. *)
Definition encode_utf8 (v : Value) : Result string :=
  match v with
  | VStr s => Return s
  | _ => Raise AttributeError
  end.

Definition login (db : DB) (user : UserLogin.t) (now : Z)
  : Result Token.t :=
  match find_one (users db) (ByField "email" (VStr (UserLogin.email user))) with
  | None => RaiseHTTP invalid_email_or_password
  | Some user_doc =>
      let d := doc_fields user_doc in
      stored <- getitem d "password" ;;
      hashed <- encode_utf8 stored ;;
      match checkpw (UserLogin.password user) hashed with
      | None => Raise ValueError
      | Some verified =>
          if negb verified then RaiseHTTP invalid_email_or_password
          else
            let access_token_expires :=
              timedelta_minutes (JWT_ACCESS_TOKEN_EXPIRE_MINUTES cfg) in
            let access_token :=
              create_access_token
                [("sub", VStr (ObjectId_str (doc_id user_doc)))]
                (Some access_token_expires) now in
            name <- getitem d "name" ;;
            email <- getitem d "email" ;;
            name <- as_str name ;;
            email <- as_str email ;;
            Return {| Token.access_token := access_token;
                      Token.token_type := "bearer";
                      Token.user_id := ObjectId_str (doc_id user_doc);
                      Token.name := name;
                      Token.email := email |}
      end
  end.

(** *** The auth routes with their request models

    The framework builds the request model from the body before the handler
    runs; [None] is its 422 answer. *)

Definition route_signup (db : DB) (email password name : string)
    (salt : string) (now : Z) (oid : ObjectId)
  : option (Result Doc * DB) :=
  match UserSignup.validate email password name with
  | Some user => Some (signup db user salt now oid)
  | None => None
  end.

Definition route_login (db : DB) (email password : string) (now : Z)
  : option (Result Token.t) :=
  match UserLogin.validate email password with
  | Some user => Some (login db user now)
  | None => None
  end.

End Handlers.

(** ** Concurrent requests

    A handler yields control at its [await]s only, and each store operation is
    atomic.  A running [signup] is therefore in one of three states: about to
    [find_one], about to [insert_one], or finished. *)

Inductive SignupTask : Type :=
| AwaitFind (user : UserSignup.t) (salt : string) (now : Z) (oid : ObjectId)
| AwaitInsert (user_doc : Doc) (oid : ObjectId)
| Finished (r : Result Doc).

Section Interleaving.
Context {bcrypt : Bcrypt}.

Definition signup_step (db : DB) (t : SignupTask) : SignupTask * DB :=
  match t with
  | AwaitFind user salt now oid =>
      match find_one (users db)
              (ByField "email" (VStr (UserSignup.email user))) with
      | Some _ => (Finished (RaiseHTTP user_already_exists), db)
      | None =>
          match hashpw (UserSignup.password user) salt with
          | None => (Finished (Raise ValueError), db)
          | Some hashed_pw => (AwaitInsert (user_doc_of user hashed_pw now) oid, db)
          end
      end
  | AwaitInsert user_doc oid =>
      match insert_one (users db) oid user_doc with
      | inl e => (Finished (Raise e), db)
      | inr (inserted_id, c) =>
          (Finished
             (Return [ ("message", VStr "User created successfully");
                       ("userId", VStr (ObjectId_str inserted_id)) ]),
           {| users := c;
              onboarding_profiles := onboarding_profiles db;
              audio_urls := audio_urls db |})
      end
  | Finished _ => (t, db)
  end.

(** A schedule names, step by step, the request that runs next: [true] for
    the first, [false] for the second. *)
Fixpoint run_signups (schedule : list bool) (db : DB) (a b : SignupTask)
  : SignupTask * SignupTask * DB :=
  match schedule with
  | [] => (a, b, db)
  | true :: s =>
      let (a', db') := signup_step db a in run_signups s db' a' b
  | false :: s =>
      let (b', db') := signup_step db b in run_signups s db' a b'
  end.

End Interleaving.

Definition outcome (t : SignupTask) : option (Result Doc) :=
  match t with
  | Finished r => Some r
  | _ => None
  end.

(** The interleavings of two requests of two steps each. *)
Definition schedules : list (list bool) :=
  [ [true; true; false; false];
    [true; false; true; false];
    [true; false; false; true];
    [false; true; true; false];
    [false; true; false; true];
    [false; false; true; true] ].

(** ** [setup_database.py] *)

Section Setup.
Context {datetime : Datetime}.

Definition sample_audio_urls (t1 t2 t3 t4 : Z) : list Doc :=
  [ [ ("language", VStr "english");
      ("url", VStr "https://example.com/audio/english_sample.mp3");
      ("description", VStr "English voice sample");
      ("createdAt", VStr (isoformat t1));
      ("updatedAt", VStr (isoformat t2)) ];
    [ ("language", VStr "arabic");
      ("url", VStr "https://example.com/audio/arabic_sample.mp3");
      ("description", VStr "Arabic voice sample");
      ("createdAt", VStr (isoformat t3));
      ("updatedAt", VStr (isoformat t4)) ] ].

Definition lift {A : Type} (r : Exc + A) : Result A :=
  match r with
  | inl e => Raise e
  | inr a => Return a
  end.

(** The seeding loop; each sample comes with the ObjectId the driver would
    give it. *)
Fixpoint seed (c : Collection) (samples : list (Doc * ObjectId))
  : Result Collection :=
  match samples with
  | [] => Return c
  | (audio_url, oid) :: rest =>
      language <- getitem audio_url "language" ;;
      match find_one c (ByField "language" language) with
      | Some _ => seed c rest
      | None =>
          r <- lift (insert_one c oid audio_url) ;;
          seed (snd r) rest
      end
  end.

Definition setup_database (db : DB) (t1 t2 t3 t4 : Z) (oid1 oid2 : ObjectId)
  : Result DB :=
  audio <- lift (create_index (audio_urls db) ["language"] true) ;;
  profiles <- lift (create_index (onboarding_profiles db)
                      ["personalDetails"; "email"] true) ;;
  profiles <- lift (create_index profiles ["createdAt"] false) ;;
  usrs <- lift (create_index (users db) ["email"] true) ;;
  usrs <- lift (create_index usrs ["createdAt"] false) ;;
  audio <- seed audio
             (combine (sample_audio_urls t1 t2 t3 t4) [oid1; oid2]) ;;
  Return {| users := usrs;
            onboarding_profiles := profiles;
            audio_urls := audio |}.

End Setup.

(** ** A small instance of the primitives

    Executable stand-ins, used to run the handlers on concrete requests. *)

Definition demo_digest (hashed : string) : option string :=
  match hashed with
  | String "$" (String "d" (String "e" (String "m" (String "o" (String "$" r)))))
    => Some r
  | _ => None
  end.

(** Passwords of more than 72 bytes are refused, as are stored strings that
    do not have the form of a digest. *)
Definition demo_bcrypt : Bcrypt :=
  {| hashpw := fun password salt =>
       if (72 <? String.length password)%nat then None
       else Some ("$demo$" ++ password);
     checkpw := fun password hashed =>
       if (72 <? String.length password)%nat then None
       else match demo_digest hashed with
            | Some p => Some (String.eqb p password)
            | None => None
            end |}.

Definition demo_pystr : PyStr := {| str_lower := lower |}.

Fixpoint demo_split (s : string) : option (string * string) :=
  match s with
  | EmptyString => None
  | String c r =>
      if Ascii.eqb c "@" then Some (EmptyString, r)
      else match demo_split r with
           | Some (l, d) => Some (String c l, d)
           | None => None
           end
  end.

Fixpoint has_at (s : string) : bool :=
  match s with
  | EmptyString => false
  | String c r => Ascii.eqb c "@" || has_at r
  end.

(** An address is a non-empty local part, one [@] and a non-empty domain;
    the domain is lower-cased. *)
Definition demo_pydantic : Pydantic :=
  {| EmailStr := fun s =>
       match demo_split s with
       | Some (l, d) =>
           if negb (String.eqb l "") && negb (String.eqb d "") && negb (has_at d)
           then Some (l ++ "@" ++ lower d)
           else None
       | None => None
       end |}.

(** A password that bcrypt does not take: 73 bytes. *)
Definition demo_long_password : string :=
  "0123456789012345678901234567890123456789012345678901234567890123456789012".

Definition demo_subject (token : string) : option string :=
  match token with
  | String "s" (String "u" (String "b" (String "=" r))) => Some r
  | _ => None
  end.

Definition demo_jose : Jose :=
  {| jwt_encode := fun claims key algorithm =>
       match doc_get claims "sub" with
       | Some (VStr s) => "sub=" ++ s
       | _ => "anonymous"
       end;
     jwt_decode := fun token key algorithms now =>
       if String.eqb token "anonymous" then inr []
       else match demo_subject token with
            | Some s => inr [("sub", VStr s)]
            | None => inl Malformed
            end |}.

Definition demo_datetime : Datetime :=
  {| isoformat := fun t => "2024-01-01T00:00:00" |}.

Definition demo_config : Config :=
  load_config {| env_JWT_SECRET_KEY := "secret";
                 env_JWT_ALGORITHM := None;
                 env_JWT_ACCESS_TOKEN_EXPIRE_MINUTES := None |}.

Definition demo_oid : ObjectId :=
  [x65; x0f; x1a; x2b; x3c; x4d; x5e; x6f; x70; x81; x92; xa3].

Definition demo_oid' : ObjectId :=
  [x65; x0f; x1a; x2b; x3c; x4d; x5e; x6f; x70; x81; x92; xa4].

Definition demo_user : UserSignup.t :=
  {| UserSignup.email := "Bob@example.com";
     UserSignup.password := "hunter2";
     UserSignup.name := "Bob" |}.

(** ** Contracts of the primitives *)

(** bcrypt: a password that [hashpw] takes verifies against its digest. *)
Class BcryptLaws (B : Bcrypt) : Prop :=
  { checkpw_hashpw :
      forall password salt hashed,
        hashpw password salt = Some hashed ->
        checkpw password hashed = Some true }.

(** pydantic: the letter case of the domain does not matter to
    [EmailStr]. *)
Class PydanticLaws (P : Pydantic) : Prop :=
  { EmailStr_domain_case :
      forall local domain1 domain2,
        lower domain1 = lower domain2 ->
        EmailStr (local ++ "@" ++ domain1) = EmailStr (local ++ "@" ++ domain2) }.

(** python-jose: a token decodes under the key and algorithm it was signed
    with, as long as its expiry is not past, and the subject survives. *)
Class JoseLaws (J : Jose) : Prop :=
  { jwt_decode_encode :
      forall claims key alg now sub exp,
        doc_get claims "sub" = Some (VStr sub) ->
        doc_get claims "exp" = Some (VDate exp) ->
        timegm now <= timegm exp ->
        exists payload,
          jwt_decode (jwt_encode claims key alg) key [alg] now = inr payload
          /\ doc_get payload "sub" = Some (VStr sub) }.

(** ** Vocabulary of the statements *)

(** The user record [signup] persists, given the digest [hashpw] returned. *)
Definition new_user (user : UserSignup.t) (hashed_pw : string)
    (now : Z) (oid : ObjectId) : Document :=
  {| doc_id := oid;
     doc_fields := bson_doc (user_doc_of user hashed_pw now) |}.

(** The store after one document was appended to [users]. *)
Definition with_user (db : DB) (d : Document) : DB :=
  {| users := {| documents := documents (users db) ++ [d];
                 unique_indexes := unique_indexes (users db) |};
     onboarding_profiles := onboarding_profiles db;
     audio_urls := audio_urls db |}.

Definition signup_response (oid : ObjectId) : Doc :=
  [ ("message", VStr "User created successfully");
    ("userId", VStr (ObjectId_str oid)) ].

Definition by_email (email : string) : Filter := ByField "email" (VStr email).

(** The ways a presented token fails verification that [get_current_user]
    tests for: [jwt.decode] raises, the payload has no subject, or the subject
    is the id of no stored user. *)
Inductive VerificationFailure {jose : Jose} (cfg : Config) (db : DB)
    (token : string) (now : Z) : Prop :=
| DecodeFails (e : JWTError) :
    jwt_decode token (JWT_SECRET_KEY cfg) [JWT_ALGORITHM cfg] now = inl e ->
    VerificationFailure cfg db token now
| NoSubject (payload : Doc) :
    jwt_decode token (JWT_SECRET_KEY cfg) [JWT_ALGORITHM cfg] now = inr payload ->
    doc_get payload "sub" = None \/ doc_get payload "sub" = Some VNull ->
    VerificationFailure cfg db token now
| NoSuchUser (payload : Doc) (user_id : string) (oid : ObjectId) :
    jwt_decode token (JWT_SECRET_KEY cfg) [JWT_ALGORITHM cfg] now = inr payload ->
    doc_get payload "sub" = Some (VStr user_id) ->
    ObjectId_of_str user_id = Some oid ->
    find_one (users db) (ById oid) = None ->
    VerificationFailure cfg db token now.

(** What [login] learns from the [password] field of a stored record: it
    reads the field, needs a string, and asks [checkpw]. *)
Definition password_check {bcrypt : Bcrypt} (password : string) (d : Doc)
  : Result bool :=
  stored <- getitem d "password" ;;
  hashed <- encode_utf8 stored ;;
  match checkpw password hashed with
  | None => Raise ValueError
  | Some verified => Return verified
  end.

(** A user record without its [password] field. *)
Definition redact (d : Doc) : Doc :=
  filter (fun kv => negb (String.eqb (fst kv) "password")) d.

(** The store after one document was appended to [onboarding_profiles]. *)
Definition with_profile (db : DB) (d : Document) : DB :=
  {| users := users db;
     onboarding_profiles :=
       {| documents := documents (onboarding_profiles db) ++ [d];
          unique_indexes := unique_indexes (onboarding_profiles db) |};
     audio_urls := audio_urls db |}.

(** ** Concrete stores and requests *)

(** The store after Bob signed up on an empty store. *)
Definition demo_db : DB :=
  with_user empty_db (new_user demo_user "$demo$hunter2" 0 demo_oid).

(** The store after the set-up script ran on an empty store. *)
Definition demo_seeded_db : DB :=
  match setup_database (datetime := demo_datetime) empty_db 0 0 0 0
          demo_oid demo_oid' with
  | Return db => db
  | _ => empty_db
  end.

Definition demo_login (email password : string) : UserLogin.t :=
  {| UserLogin.email := email; UserLogin.password := password |}.

(** A store whose only audio document has no timestamps. *)
Definition demo_audio_doc : Document :=
  {| doc_id := demo_oid;
     doc_fields := [ ("language", VStr "english");
                     ("url", VStr "https://example.com/audio/english_sample.mp3") ] |}.

Definition demo_audio_db : DB :=
  {| users := empty_collection;
     onboarding_profiles := empty_collection;
     audio_urls := {| documents := [demo_audio_doc]; unique_indexes := [] |} |}.

(** A presented token the demo decoder accepts, with Bob's id as subject. *)
Definition demo_token : string := "sub=650f1a2b3c4d5e6f708192a3".

(** A user record as [signup] writes it: [email], [name] and [password] are
    present and are strings. *)
Definition user_record_ok (d : Document) : Prop :=
  exists email name hashed,
    doc_get (doc_fields d) "email" = Some (VStr email)
    /\ doc_get (doc_fields d) "name" = Some (VStr name)
    /\ doc_get (doc_fields d) "password" = Some (VStr hashed).

Definition users_wellformed (db : DB) : Prop :=
  Forall user_record_ok (documents (users db)).

(** The email of each user record, in storage order. *)
Definition stored_emails (db : DB) : list (option Value) :=
  map (fun d => doc_get (doc_fields d) "email") (documents (users db)).

(** The [_id] of each user record, in storage order. *)
Definition stored_ids (db : DB) : list ObjectId :=
  map doc_id (documents (users db)).

(** The configurations two concurrent signups with one email can be in, on a
    store with the unique index on [email]: the two tasks and the store. *)
Definition race_states (db : DB)
    (u1 : UserSignup.t) (s1 h1 : string) (n1 : Z) (o1 : ObjectId)
    (u2 : UserSignup.t) (s2 h2 : string) (n2 : Z) (o2 : ObjectId)
  : list (SignupTask * SignupTask * DB) :=
  let find1 := AwaitFind u1 s1 n1 o1 in
  let find2 := AwaitFind u2 s2 n2 o2 in
  let insert1 := AwaitInsert (user_doc_of u1 h1 n1) o1 in
  let insert2 := AwaitInsert (user_doc_of u2 h2 n2) o2 in
  let won1 := Finished (Return (signup_response o1)) in
  let won2 := Finished (Return (signup_response o2)) in
  let conflict := Finished (RaiseHTTP user_already_exists) in
  let refused := Finished (Raise DuplicateKeyError) in
  let db1 := with_user db (new_user u1 h1 n1 o1) in
  let db2 := with_user db (new_user u2 h2 n2 o2) in
  [ (find1, find2, db); (insert1, find2, db);
    (find1, insert2, db); (insert1, insert2, db);
    (won1, find2, db1); (won1, insert2, db1);
    (won1, conflict, db1); (won1, refused, db1);
    (find1, won2, db2); (insert1, won2, db2);
    (conflict, won2, db2); (refused, won2, db2) ].

(** The query for an audio document by language. *)
Definition by_language (l : string) : Filter := ByField "language" (VStr l).

(** A seeding sample whose [language] is a string. *)
Definition has_language (sample : Doc * ObjectId) : Prop :=
  exists l, doc_get (fst sample) "language" = Some (VStr l).

Definition demo_onboarding : OnboardingData.t :=
  {| OnboardingData.theme := "dark";
     OnboardingData.personalDetails :=
       {| PersonalDetails.name := "Bob";
          PersonalDetails.age := 41;
          PersonalDetails.email := "bob@example.com" |};
     OnboardingData.referralSource := "friend";
     OnboardingData.persona := "creator";
     OnboardingData.pricingPlan := "free" |}.

Definition demo_onboarding_response : OnboardingResponse.t :=
  {| OnboardingResponse.message := "Onboarding profile created successfully";
     OnboardingResponse.userId := ObjectId_str demo_oid;
     OnboardingResponse.status := "success" |}.

(** The seeded store after Bob's onboarding profile was created. *)
Definition demo_profile_db : DB :=
  with_profile demo_seeded_db
    {| doc_id := demo_oid;
       doc_fields := profile_doc (datetime := demo_datetime) demo_onboarding 0 0 |}.

(** What the demo primitives answer to Bob's login. *)
Definition demo_tok : Token.t :=
  {| Token.access_token := demo_token;
     Token.token_type := "bearer";
     Token.user_id := ObjectId_str demo_oid;
     Token.name := "Bob";
     Token.email := "Bob@example.com" |}.

(** A request with a password of 73 bytes. *)
Definition demo_long_user : UserSignup.t :=
  {| UserSignup.email := "carol@example.com";
     UserSignup.password := demo_long_password;
     UserSignup.name := "Carol" |}.

(** The store in which Bob's record holds the digest of another password. *)
Definition demo_other_digest_db : DB :=
  with_user empty_db (new_user demo_user "$demo$swordfish" 0 demo_oid).

(** A store whose only audio document has [createdAt] but no [updatedAt]. *)
Definition demo_created_only_doc : Document :=
  {| doc_id := demo_oid;
     doc_fields := [ ("language", VStr "english");
                     ("url", VStr "https://example.com/audio/english_sample.mp3");
                     ("createdAt", VStr "2024-01-01T00:00:00") ] |}.

Definition demo_created_only_db : DB :=
  {| users := empty_collection;
     onboarding_profiles := empty_collection;
     audio_urls := {| documents := [demo_created_only_doc];
                      unique_indexes := [] |} |}.

(** The store in which Bob's record holds his password as typed, not a
    digest. *)
Definition demo_plain_db : DB :=
  with_user empty_db (new_user demo_user "hunter2" 0 demo_oid).

(** * Properties *)

(** ** ObjectId *)

Lemma unhex_hexdigit_byte (b : byte) :
  unhex (hexdigit (Byte.to_N b / 16)) = Some (Byte.to_N b / 16)%N
  /\ unhex (hexdigit (Byte.to_N b mod 16)) = Some (Byte.to_N b mod 16)%N
  /\ Byte.of_N (16 * (Byte.to_N b / 16) + Byte.to_N b mod 16) = Some b.
Proof. destruct b; vm_compute; repeat split. Qed.

Lemma fromhex_hexlify (bs : list byte) : fromhex (hexlify bs) = Some bs.
Proof.
  induction bs as [|b r IH]; [reflexivity|].
  cbn [hexlify fromhex].
  destruct (unhex_hexdigit_byte b) as (-> & -> & ->).
  now rewrite IH.
Qed.

Lemma length_hexlify (bs : list byte) :
  String.length (hexlify bs) = (2 * List.length bs)%nat.
Proof. induction bs as [|b r IH]; cbn [hexlify String.length List.length]; lia. Qed.

(** [ObjectId(str(oid)) == oid] *)
Lemma ObjectId_of_str_str (o : ObjectId) :
  ObjectId_valid o -> ObjectId_of_str (ObjectId_str o) = Some o.
Proof.
  unfold ObjectId_valid, ObjectId_of_str, ObjectId_str. intros Hv.
  rewrite length_hexlify, Hv. cbn [Nat.mul Nat.add Nat.eqb].
  apply fromhex_hexlify.
Qed.

Lemma ObjectId_eqb_eq (a b : ObjectId) : ObjectId_eqb a b = true <-> a = b.
Proof.
  unfold ObjectId_eqb. destruct (list_eq_dec byte_eq_dec a b); split; congruence.
Qed.

Lemma ObjectId_eqb_refl (a : ObjectId) : ObjectId_eqb a a = true.
Proof. now apply ObjectId_eqb_eq. Qed.

(** ** Documents and queries *)

Lemma Value_eqb_VStr (v : Value) (s : string) :
  Value_eqb v (VStr s) = true <-> v = VStr s.
Proof.
  destruct v; cbn; try (split; [discriminate | discriminate]).
  rewrite String.eqb_eq. split; congruence.
Qed.

Lemma find_app {A : Type} (f : A -> bool) (l1 l2 : list A) :
  find f (l1 ++ l2) =
  match find f l1 with Some x => Some x | None => find f l2 end.
Proof.
  induction l1 as [|a l1 IH]; cbn; [reflexivity|].
  destruct (f a); [reflexivity | apply IH].
Qed.

Lemma find_none_existsb {A : Type} (f : A -> bool) (l : list A) :
  find f l = None <-> existsb f l = false.
Proof.
  induction l as [|a l IH]; cbn; [tauto|].
  destruct (f a); cbn; [split; discriminate | exact IH].
Qed.

Lemma matches_email_same_key (e : string) (x d : Doc) :
  doc_get d "email" = Some (VStr e) ->
  same_key ["email"] x d =
  match doc_get x "email" with Some w => Value_eqb w (VStr e) | None => false end.
Proof.
  intros Hd. unfold same_key. cbn [path_get]. rewrite Hd.
  destruct (doc_get x "email"); reflexivity.
Qed.

Lemma existsb_same_email (e : string) (d : Doc) (ds : list Document) :
  doc_get d "email" = Some (VStr e) ->
  existsb (fun x => same_key ["email"] (doc_fields x) d) ds =
  existsb (matches (by_email e)) ds.
Proof.
  intros Hd. induction ds as [|x xs IH]; [reflexivity|].
  cbn [existsb]. rewrite IH. f_equal.
  now rewrite (matches_email_same_key e).
Qed.

(** A document whose email no stored user has passes every unique index of a
    collection that is indexed on [email] at most. *)
Lemma email_unique_ok (c : Collection) (e : string) (d : Doc) :
  incl (unique_indexes c) [["email"]] ->
  find_one c (by_email e) = None ->
  doc_get d "email" = Some (VStr e) ->
  violates_unique c d = false.
Proof.
  intros Hidx Hfind Hd. unfold violates_unique.
  apply find_none_existsb in Hfind.
  induction (unique_indexes c) as [|p ps IH]; [reflexivity|].
  cbn [existsb]. rewrite IH by (intros q Hq; apply Hidx; now right).
  rewrite orb_false_r.
  destruct (Hidx p (or_introl eq_refl)) as [<- | []].
  now rewrite (existsb_same_email e).
Qed.

Lemma insert_one_ok (c : Collection) (oid : ObjectId) (d : Doc) :
  find_one c (ById oid) = None ->
  violates_unique c (bson_doc d) = false ->
  insert_one c oid d =
  inr (oid, {| documents :=
                 documents c ++ [{| doc_id := oid; doc_fields := bson_doc d |}];
               unique_indexes := unique_indexes c |}).
Proof.
  intros Hid Hu. unfold insert_one.
  apply find_none_existsb in Hid.
  change (existsb (fun x => ObjectId_eqb (doc_id x) oid) (documents c))
    with (existsb (matches (ById oid)) (documents c)).
  now rewrite Hid, Hu.
Qed.

Section Properties.
Context {bcrypt : Bcrypt} {jose : Jose} {datetime : Datetime}
  {pystr : PyStr} {pydantic : Pydantic}.

Lemma signup_existing (db : DB) (user : UserSignup.t) (salt : string)
    (now : Z) (oid : ObjectId) (existing : Document) :
  find_one (users db) (by_email (UserSignup.email user)) = Some existing ->
  signup db user salt now oid = (RaiseHTTP user_already_exists, db).
Proof. unfold signup, by_email. now intros ->. Qed.

Lemma signup_fresh (db : DB) (user : UserSignup.t) (salt hashed : string)
    (now : Z) (oid : ObjectId) :
  find_one (users db) (by_email (UserSignup.email user)) = None ->
  hashpw (UserSignup.password user) salt = Some hashed ->
  find_one (users db) (ById oid) = None ->
  incl (unique_indexes (users db)) [["email"]] ->
  signup db user salt now oid =
  (Return (signup_response oid), with_user db (new_user user hashed now oid)).
Proof.
  intros He Hh Hid Hidx. unfold signup. unfold by_email in He. rewrite He, Hh.
  rewrite insert_one_ok; [reflexivity | exact Hid |].
  now apply (email_unique_ok _ (UserSignup.email user)).
Qed.

Lemma signup_refused_password (db : DB) (user : UserSignup.t) (salt : string)
    (now : Z) (oid : ObjectId) :
  find_one (users db) (by_email (UserSignup.email user)) = None ->
  hashpw (UserSignup.password user) salt = None ->
  signup db user salt now oid = (Raise ValueError, db).
Proof. unfold signup, by_email. now intros -> ->. Qed.

(** What holds of [signup] when bcrypt takes the password: an email that a
    stored user already has is rejected with the 400 "User already exists"
    and the store is left as it was; otherwise (the driver's ObjectId being
    new and [users] being indexed on [email] at most) exactly one record is
    appended, holding the bcrypt digest of the password, and the answer is
    a message and the new identifier only: no token is part of it. *)
Lemma signup_rejects_duplicate_or_inserts_one (db : DB)
    (user : UserSignup.t) (salt hashed : string) (now : Z) (oid : ObjectId) :
  (forall existing,
      find_one (users db) (by_email (UserSignup.email user)) = Some existing ->
      signup db user salt now oid = (RaiseHTTP user_already_exists, db)
      /\ http_status (fst (signup db user salt now oid)) = 400)
  /\ (find_one (users db) (by_email (UserSignup.email user)) = None ->
      hashpw (UserSignup.password user) salt = Some hashed ->
      find_one (users db) (ById oid) = None ->
      incl (unique_indexes (users db)) [["email"]] ->
      let (response, db') := signup db user salt now oid in
      response = Return (signup_response oid)
      /\ doc_keys (signup_response oid) = ["message"; "userId"]
      /\ documents (users db') =
         (documents (users db) ++ [new_user user hashed now oid])%list
      /\ doc_get (doc_fields (new_user user hashed now oid)) "password" =
         Some (VStr hashed)
      /\ onboarding_profiles db' = onboarding_profiles db
      /\ audio_urls db' = audio_urls db).
Proof.
  split.
  - intros existing H. rewrite (signup_existing _ _ _ _ _ _ H). now split.
  - intros He Hh Hid Hidx. rewrite (signup_fresh _ _ _ hashed) by assumption.
    repeat split.
Qed.

(** C4. A signup with a new email whose password [bcrypt.hashpw] does not
    take (one of more than 72 bytes) ends with the [ValueError] that
    [signup] does not catch: the answer is a 500 and no record is stored,
    where the email is new and a record should have been inserted. *)
Theorem signup_refused_password_is_500 (db : DB) (user : UserSignup.t)
    (salt : string) (now : Z) (oid : ObjectId) :
  find_one (users db) (by_email (UserSignup.email user)) = None ->
  hashpw (UserSignup.password user) salt = None ->
  signup db user salt now oid = (Raise ValueError, db)
  /\ http_status (fst (signup db user salt now oid)) = 500
  /\ is_success (fst (signup db user salt now oid)) = false
  /\ documents (users (snd (signup db user salt now oid)))
     = documents (users db).
Proof.
  intros He Hh. rewrite (signup_refused_password _ _ _ _ _ He Hh).
  repeat split.
Qed.

(** *** Login *)

Variable cfg : Config.

Lemma login_unknown_email (db : DB) (user : UserLogin.t) (now : Z) :
  find_one (users db) (by_email (UserLogin.email user)) = None ->
  login cfg db user now = RaiseHTTP invalid_email_or_password.
Proof. unfold login, by_email. now intros ->. Qed.

Lemma login_wrong_password (db : DB) (user : UserLogin.t) (now : Z)
    (user_doc : Document) (hashed : string) :
  find_one (users db) (by_email (UserLogin.email user)) = Some user_doc ->
  doc_get (doc_fields user_doc) "password" = Some (VStr hashed) ->
  checkpw (UserLogin.password user) hashed = Some false ->
  login cfg db user now = RaiseHTTP invalid_email_or_password.
Proof.
  unfold login, by_email, getitem. intros -> -> Hc.
  cbn [bind encode_utf8]. now rewrite Hc.
Qed.

Lemma login_success (db : DB) (user : UserLogin.t) (now : Z)
    (user_doc : Document) (hashed name email : string) :
  find_one (users db) (by_email (UserLogin.email user)) = Some user_doc ->
  doc_get (doc_fields user_doc) "password" = Some (VStr hashed) ->
  doc_get (doc_fields user_doc) "name" = Some (VStr name) ->
  doc_get (doc_fields user_doc) "email" = Some (VStr email) ->
  checkpw (UserLogin.password user) hashed = Some true ->
  login cfg db user now =
  Return {| Token.access_token :=
              create_access_token cfg
                [("sub", VStr (ObjectId_str (doc_id user_doc)))]
                (Some (timedelta_minutes (JWT_ACCESS_TOKEN_EXPIRE_MINUTES cfg)))
                now;
            Token.token_type := "bearer";
            Token.user_id := ObjectId_str (doc_id user_doc);
            Token.name := name;
            Token.email := email |}.
Proof.
  unfold login, by_email, getitem. intros -> -> -> -> Hc.
  cbn [bind encode_utf8 as_str]. now rewrite Hc.
Qed.


(** *** The store after a signup *)

Lemma find_new_user_by_email (db : DB) (user : UserSignup.t) (hashed : string)
    (now : Z) (oid : ObjectId) :
  find_one (users db) (by_email (UserSignup.email user)) = None ->
  find_one (users (with_user db (new_user user hashed now oid)))
           (by_email (UserSignup.email user))
  = Some (new_user user hashed now oid).
Proof.
  intros He. unfold find_one in *. cbn [with_user users documents].
  rewrite find_app, He. cbn [find].
  replace (matches _ _) with true; [reflexivity|].
  cbn. now rewrite String.eqb_refl.
Qed.

Lemma find_new_user_by_id (db : DB) (d : Document) :
  find_one (users db) (ById (doc_id d)) = None ->
  find_one (users (with_user db d)) (ById (doc_id d)) = Some d.
Proof.
  intros Hid. unfold find_one in *. cbn [with_user users documents].
  rewrite find_app, Hid. cbn [find matches].
  now rewrite ObjectId_eqb_refl.
Qed.

(** *** Tokens *)

Lemma token_claims_login (s : string) (now : Z) :
  token_claims cfg [("sub", VStr s)]
    (Some (timedelta_minutes (JWT_ACCESS_TOKEN_EXPIRE_MINUTES cfg))) now
  = [ ("sub", VStr s);
      ("exp", VDate (now + timedelta_minutes (JWT_ACCESS_TOKEN_EXPIRE_MINUTES cfg))) ].
Proof.
  unfold token_claims.
  now destruct (negb (timedelta_minutes (JWT_ACCESS_TOKEN_EXPIRE_MINUTES cfg) =? 0)).
Qed.

(** A clock that has not passed the expiry has not passed it in whole
    seconds either. *)
Lemma timegm_monotone (a b : Z) : a <= b -> timegm a <= timegm b.
Proof. intros H. unfold timegm. apply Z.div_le_mono; lia. Qed.

Section Roundtrip.
Context {bcrypt_laws : BcryptLaws bcrypt} {jose_laws : JoseLaws jose}.

(** C1. After a signup with an email that no stored user has and a valid
    password, one that [bcrypt.hashpw] takes, a login with the same email
    and password succeeds, and the access token it returns, presented to
    [get_current_user] before its expiry, resolves to the user whose id
    [signup] returned. *)
Theorem signup_login_token_resolves (db : DB) (user : UserSignup.t)
    (salt hashed : string) (t0 t1 t2 : Z) (oid : ObjectId) :
  find_one (users db) (by_email (UserSignup.email user)) = None ->
  hashpw (UserSignup.password user) salt = Some hashed ->
  find_one (users db) (ById oid) = None ->
  ObjectId_valid oid ->
  incl (unique_indexes (users db)) [["email"]] ->
  timegm t2 <=
    timegm (t1 + timedelta_minutes (JWT_ACCESS_TOKEN_EXPIRE_MINUTES cfg)) ->
  exists db' tok current,
    signup db user salt t0 oid = (Return (signup_response oid), db')
    /\ login cfg db'
         {| UserLogin.email := UserSignup.email user;
            UserLogin.password := UserSignup.password user |} t1
       = Return tok
    /\ get_current_user cfg db' (Token.access_token tok) t2 = Return current
    /\ doc_get (signup_response oid) "userId"
       = Some (VStr (ObjectId_str (doc_id current)))
    /\ Token.user_id tok = ObjectId_str (doc_id current).
Proof.
  intros He Hh Hid Hv Hidx Hexp.
  set (nu := new_user user hashed t0 oid).
  exists (with_user db nu).
  pose proof (find_new_user_by_email db user hashed t0 oid He) as Hfe.
  pose proof (find_new_user_by_id db nu Hid) as Hfi.
  fold nu in Hfe.
  eexists. exists nu. split; [now apply signup_fresh|]. split.
  - apply (login_success _ _ _ nu hashed
             (UserSignup.name user) (UserSignup.email user));
      try reflexivity; [exact Hfe | now apply (checkpw_hashpw _ salt)].
  - cbn [Token.access_token Token.user_id].
    unfold create_access_token. rewrite token_claims_login.
    destruct (jwt_decode_encode
                [ ("sub", VStr (ObjectId_str (doc_id nu)));
                  ("exp", VDate (t1 + timedelta_minutes
                                   (JWT_ACCESS_TOKEN_EXPIRE_MINUTES cfg))) ]
                (JWT_SECRET_KEY cfg) (JWT_ALGORITHM cfg) t2
                (ObjectId_str (doc_id nu))
                (t1 + timedelta_minutes (JWT_ACCESS_TOKEN_EXPIRE_MINUTES cfg))
                eq_refl eq_refl Hexp) as (payload & Hdec & Hsub).
    unfold get_current_user. rewrite Hdec, Hsub.
    cbn [nu new_user doc_id] in *.
    rewrite (ObjectId_of_str_str oid Hv), Hfi.
    repeat split.
Qed.

End Roundtrip.

(** *** The session authenticator *)

(** Every failure that [get_current_user] tests for ends in the one
    [credentials_exception]. *)
Lemma get_current_user_rejects (db : DB) (token : string) (now : Z) :
  VerificationFailure cfg db token now ->
  get_current_user cfg db token now = RaiseHTTP credentials_exception.
Proof.
  unfold get_current_user.
  intros [e He | payload Hd [Hs | Hs] | payload user_id oid Hd Hs Ho Hf].
  - now rewrite He.
  - now rewrite Hd, Hs.
  - now rewrite Hd, Hs.
  - now rewrite Hd, Hs, Ho, Hf.
Qed.

Lemma credentials_exception_is_401 :
  status_code credentials_exception = 401
  /\ detail credentials_exception = "Could not validate credentials"
  /\ headers credentials_exception = [("WWW-Authenticate", "Bearer")].
Proof. repeat split. Qed.

(** What [get_current_user] can answer at all. *)
Lemma get_current_user_outcomes (db : DB) (token : string) (now : Z) :
  (exists user, get_current_user cfg db token now = Return user
                /\ In user (documents (users db)))
  \/ get_current_user cfg db token now = RaiseHTTP credentials_exception
  \/ get_current_user cfg db token now = Raise InvalidId
  \/ get_current_user cfg db token now = Raise TypeError.
Proof.
  unfold get_current_user.
  destruct (jwt_decode _ _ _ _) as [e | payload]; [tauto|].
  destruct (doc_get payload "sub") as [[ | user_id | | | ] | ]; try tauto.
  destruct (ObjectId_of_str user_id) as [oid|]; [|tauto].
  destruct (find_one (users db) (ById oid)) as [user|] eqn:Hf; [|tauto].
  left. exists user. split; [reflexivity|].
  now apply find_some in Hf.
Qed.

(** C2. A token that [jwt.decode] accepts and whose subject is a string
    that is not the text of an ObjectId is answered with the unhandled
    [InvalidId], a 500, and not with the 401 of [credentials_exception]. *)
Theorem get_current_user_unparsable_subject (db : DB) (token : string)
    (now : Z) (payload : Doc) (user_id : string) :
  jwt_decode token (JWT_SECRET_KEY cfg) [JWT_ALGORITHM cfg] now = inr payload ->
  doc_get payload "sub" = Some (VStr user_id) ->
  ObjectId_of_str user_id = None ->
  get_current_user cfg db token now = Raise InvalidId
  /\ http_status (get_current_user cfg db token now) = 500
  /\ get_current_user cfg db token now <> RaiseHTTP credentials_exception.
Proof.
  intros Hd Hs Ho. unfold get_current_user. rewrite Hd, Hs, Ho.
  repeat split. discriminate.
Qed.

(** *** Onboarding profiles *)

Lemma get_onboarding_profile_invalid (db : DB) (user_id : string) :
  ObjectId_of_str user_id = None ->
  get_onboarding_profile db user_id = Raise InvalidId.
Proof. unfold get_onboarding_profile. now intros ->. Qed.

Lemma get_onboarding_profile_missing (db : DB) (user_id : string)
    (oid : ObjectId) :
  ObjectId_of_str user_id = Some oid ->
  find_one (onboarding_profiles db) (ById oid) = None ->
  get_onboarding_profile db user_id
  = RaiseHTTP {| status_code := 404; detail := "Profile not found";
                 headers := [] |}.
Proof. unfold get_onboarding_profile. now intros -> ->. Qed.

Lemma insert_one_inv (c c' : Collection) (oid i : ObjectId) (d : Doc) :
  insert_one c oid d = inr (i, c') ->
  i = oid
  /\ c' = {| documents :=
               documents c ++ [{| doc_id := oid; doc_fields := bson_doc d |}];
             unique_indexes := unique_indexes c |}
  /\ find_one c (ById oid) = None.
Proof.
  unfold insert_one.
  destruct (existsb _ (documents c)) eqn:Hid; [discriminate|].
  destruct (violates_unique c (bson_doc d)); [discriminate|].
  intros [= <- <-]. repeat split.
  now apply find_none_existsb.
Qed.

(** A profile that was just created is read back under the id the creation
    returned. *)
Lemma create_then_get_onboarding_profile (db db' : DB)
    (data : OnboardingData.t) (now1 now2 : Z) (oid : ObjectId)
    (response : OnboardingResponse.t) :
  ObjectId_valid oid ->
  create_onboarding_profile db data now1 now2 oid = (Return response, db') ->
  get_onboarding_profile db' (OnboardingResponse.userId response)
  = Return (("_id", VStr (OnboardingResponse.userId response))
              :: bson_doc (profile_doc data now1 now2)).
Proof.
  intros Hv. unfold create_onboarding_profile.
  destruct (insert_one _ _ _) as [e | [i c]] eqn:Hi; [discriminate|].
  apply insert_one_inv in Hi. destruct Hi as (-> & -> & Hid).
  intros [= <- <-]. cbn [OnboardingResponse.userId].
  unfold get_onboarding_profile. rewrite (ObjectId_of_str_str oid Hv).
  unfold find_one in *. cbn [onboarding_profiles documents].
  rewrite find_app, Hid. cbn [find matches doc_id].
  now rewrite ObjectId_eqb_refl.
Qed.

(** C8. [GET /api/onboarding/badid]: the id is not the text of an ObjectId,
    [ObjectId(user_id)] raises [InvalidId], and the request ends with a 500
    instead of the 404 "Profile not found". *)
Theorem get_onboarding_profile_badid_is_500 (db : DB) :
  ObjectId_of_str "badid" = None
  /\ get_onboarding_profile db "badid" = Raise InvalidId
  /\ http_status (get_onboarding_profile db "badid") = 500.
Proof. repeat split. Qed.

(** *** The token issuer *)

Lemma doc_get_doc_set_same (d : Doc) (k : string) (v : Value) :
  doc_get (doc_set d k v) k = Some v.
Proof.
  induction d as [|[k' w] r IH]; cbn [doc_set doc_get].
  - now rewrite String.eqb_refl.
  - destruct (String.eqb k' k) eqn:E; cbn [doc_get].
    + now rewrite String.eqb_refl.
    + now rewrite E.
Qed.

Lemma doc_get_doc_set_other (d : Doc) (k k' : string) (v : Value) :
  k' <> k -> doc_get (doc_set d k v) k' = doc_get d k'.
Proof.
  intros Hk. apply String.eqb_neq in Hk.
  induction d as [|[k0 w] r IH]; cbn [doc_set doc_get].
  - rewrite String.eqb_sym. now rewrite Hk.
  - destruct (String.eqb k0 k) eqn:E; cbn [doc_get].
    + apply String.eqb_eq in E. subst k0.
      rewrite String.eqb_sym. now rewrite Hk.
    + destruct (String.eqb k0 k'); [reflexivity | exact IH].
Qed.

(** A ttl other than zero is added to the clock, and the subject is
    signed as given. *)
Lemma token_claims_ttl (data : Doc) (delta now : Z) :
  delta <> 0 ->
  doc_get (token_claims cfg data (Some delta) now) "exp"
  = Some (VDate (now + delta))
  /\ doc_get (token_claims cfg data (Some delta) now) "sub"
     = doc_get data "sub".
Proof.
  intros Hd. unfold token_claims. apply Z.eqb_neq in Hd. rewrite Hd.
  cbn [negb]. split.
  - apply doc_get_doc_set_same.
  - now apply doc_get_doc_set_other.
Qed.

(** Without a ttl the configured number of minutes is used. *)
Lemma token_claims_default (data : Doc) (now : Z) :
  doc_get (token_claims cfg data None now) "exp"
  = Some (VDate (now + timedelta_minutes (JWT_ACCESS_TOKEN_EXPIRE_MINUTES cfg)))
  /\ doc_get (token_claims cfg data None now) "sub" = doc_get data "sub".
Proof.
  unfold token_claims. split.
  - apply doc_get_doc_set_same.
  - now apply doc_get_doc_set_other.
Qed.

(** The environment's defaults: thirty minutes and HS256. *)
Lemma load_config_defaults (secret : string) :
  let c := load_config {| env_JWT_SECRET_KEY := secret;
                          env_JWT_ALGORITHM := None;
                          env_JWT_ACCESS_TOKEN_EXPIRE_MINUTES := None |} in
  JWT_ACCESS_TOKEN_EXPIRE_MINUTES c = 30
  /\ JWT_ALGORITHM c = "HS256"
  /\ JWT_SECRET_KEY c = secret.
Proof. repeat split. Qed.

(** The token is the payload signed with the configured secret and
    algorithm. *)
Lemma create_access_token_signs (data : Doc) (expires_delta : option Z)
    (now : Z) :
  create_access_token cfg data expires_delta now
  = jwt_encode (token_claims cfg data expires_delta now)
      (JWT_SECRET_KEY cfg) (JWT_ALGORITHM cfg).
Proof. reflexivity. Qed.

(** C6. A requested ttl of zero is not encoded as "now plus zero": the
    truth test [if expires_delta:] takes [timedelta(0)] for a missing ttl,
    and under the default configuration the token expires thirty minutes
    after the clock. *)
Theorem create_access_token_zero_ttl (secret subject : string) (now : Z) :
  let c := load_config {| env_JWT_SECRET_KEY := secret;
                          env_JWT_ALGORITHM := None;
                          env_JWT_ACCESS_TOKEN_EXPIRE_MINUTES := None |} in
  token_claims c [("sub", VStr subject)] (Some 0) now
  = [("sub", VStr subject); ("exp", VDate (now + 1800000000))]
  /\ doc_get (token_claims c [("sub", VStr subject)] (Some 0) now) "exp"
     <> Some (VDate (now + 0))
  /\ create_access_token c [("sub", VStr subject)] (Some 0) now
     = jwt_encode [("sub", VStr subject); ("exp", VDate (now + 1800000000))]
         secret "HS256".
Proof.
  cbn zeta. repeat split.
  cbn. intros [= H]. lia.
Qed.

(** *** Audio *)

Lemma lower_ascii_idempotent (c : ascii) :
  lower_ascii (lower_ascii c) = lower_ascii c.
Proof. destruct c as [[] [] [] [] [] [] [] []]; reflexivity. Qed.

Lemma lower_idempotent (s : string) : lower (lower s) = lower s.
Proof.
  induction s as [|c r IH]; cbn [lower]; [reflexivity|].
  now rewrite lower_ascii_idempotent, IH.
Qed.

Lemma find_one_language (db : DB) (l : string) (audio_doc : Document) :
  find_one (audio_urls db) (ByField "language" (VStr l)) = Some audio_doc ->
  doc_get (doc_fields audio_doc) "language" = Some (VStr l).
Proof.
  intros Hf. apply find_some in Hf. destruct Hf as [_ Hm].
  cbn [matches] in Hm.
  destruct (doc_get (doc_fields audio_doc) "language") as [w|]; [|discriminate].
  now apply Value_eqb_VStr in Hm as ->.
Qed.

(** C10. [get_audio_url] looks up the document whose [language] equals
    [lang.lower()]: no document is found without one (404), two inputs with
    the same lower-case form are answered from the same document, the
    [language] of a document that is found is the lower-cased input, so
    that a language key that is the lower case of no input is never found;
    and a [createdAt] or [updatedAt] that the document lacks, either or
    both, comes back as the empty string. *)
Theorem get_audio_url_lowercase_lookup (db : DB) (lang : string) :
  (find_one (audio_urls db) (ByField "language" (VStr (str_lower lang))) = None ->
   http_status (get_audio_url db lang) = 404)
  /\ (forall r, get_audio_url db lang = Return r ->
      exists audio_doc,
        find_one (audio_urls db) (ByField "language" (VStr (str_lower lang)))
        = Some audio_doc
        /\ doc_get (doc_fields audio_doc) "language"
           = Some (VStr (AudioResponse.language r))
        /\ AudioResponse.language r = str_lower lang
        /\ doc_get (doc_fields audio_doc) "url"
           = Some (VStr (AudioResponse.audioUrl r))
        /\ (doc_get (doc_fields audio_doc) "createdAt" = None ->
            AudioResponse.createdAt r = "")
        /\ (doc_get (doc_fields audio_doc) "updatedAt" = None ->
            AudioResponse.updatedAt r = "")
        /\ (forall c, doc_get (doc_fields audio_doc) "createdAt" = Some (VStr c) ->
            AudioResponse.createdAt r = c)
        /\ (forall u, doc_get (doc_fields audio_doc) "updatedAt" = Some (VStr u) ->
            AudioResponse.updatedAt r = u))
  /\ (forall lang' r, str_lower lang' = str_lower lang ->
      get_audio_url db lang = Return r -> get_audio_url db lang' = Return r)
  /\ (forall key,
        (forall input, str_lower input <> key) ->
        forall input audio_doc,
          find_one (audio_urls db) (ByField "language" (VStr (str_lower input)))
          = Some audio_doc ->
          doc_get (doc_fields audio_doc) "language" <> Some (VStr key))
  /\ (forall audio_doc url created updated,
        find_one (audio_urls db) (ByField "language" (VStr (str_lower lang)))
        = Some audio_doc ->
        doc_get (doc_fields audio_doc) "url" = Some (VStr url) ->
        (doc_get (doc_fields audio_doc) "createdAt" = None /\ created = ""
         \/ doc_get (doc_fields audio_doc) "createdAt" = Some (VStr created)) ->
        (doc_get (doc_fields audio_doc) "updatedAt" = None /\ updated = ""
         \/ doc_get (doc_fields audio_doc) "updatedAt" = Some (VStr updated)) ->
        get_audio_url db lang
        = Return {| AudioResponse.language := str_lower lang;
                    AudioResponse.audioUrl := url;
                    AudioResponse.createdAt := created;
                    AudioResponse.updatedAt := updated |}).
Proof.
  assert (Hret : forall input r, get_audio_url db input = Return r ->
            exists audio_doc,
              find_one (audio_urls db)
                (ByField "language" (VStr (str_lower input))) = Some audio_doc
              /\ doc_get (doc_fields audio_doc) "language"
                 = Some (VStr (AudioResponse.language r))
              /\ AudioResponse.language r = str_lower input
              /\ doc_get (doc_fields audio_doc) "url"
                 = Some (VStr (AudioResponse.audioUrl r))
              /\ (doc_get (doc_fields audio_doc) "createdAt" = None ->
                  AudioResponse.createdAt r = "")
              /\ (doc_get (doc_fields audio_doc) "updatedAt" = None ->
                  AudioResponse.updatedAt r = "")
              /\ (forall c,
                    doc_get (doc_fields audio_doc) "createdAt" = Some (VStr c) ->
                    AudioResponse.createdAt r = c)
              /\ (forall u,
                    doc_get (doc_fields audio_doc) "updatedAt" = Some (VStr u) ->
                    AudioResponse.updatedAt r = u)).
  { intros input r. unfold get_audio_url.
    destruct (find_one _ _) as [audio_doc|] eqn:Hf; [|discriminate].
    pose proof (find_one_language _ _ _ Hf) as Hl.
    unfold getitem, doc_get_default. rewrite Hl.
    destruct (doc_get (doc_fields audio_doc) "url")
      as [[ | u | | | ]|] eqn:Hu; cbn [bind as_str]; try discriminate.
    destruct (doc_get (doc_fields audio_doc) "createdAt")
      as [[ | c | | | ]|] eqn:Hc; cbn [bind as_str]; try discriminate;
      destruct (doc_get (doc_fields audio_doc) "updatedAt")
        as [[ | c' | | | ]|] eqn:Hup; cbn [bind as_str];
      try discriminate;
      intros [= <-]; exists audio_doc;
      cbn [AudioResponse.language AudioResponse.audioUrl
           AudioResponse.createdAt AudioResponse.updatedAt];
      rewrite ?Hc, ?Hup;
      repeat split; try assumption; try discriminate; try reflexivity;
      intros ? [= <-]; reflexivity. }
  split; [|split; [|split; [|split]]].
  - unfold get_audio_url. now intros ->.
  - apply Hret.
  - intros lang' r Hl. unfold get_audio_url. rewrite Hl.
    destruct (find_one _ _); [tauto | discriminate].
  - intros key Hkey input audio_doc Hf.
    rewrite (find_one_language _ _ _ Hf). intros [= H]. now apply (Hkey input).
  - intros audio_doc url created updated Hf Hu Hc Hup.
    unfold get_audio_url. rewrite Hf.
    unfold getitem, doc_get_default.
    rewrite (find_one_language _ _ _ Hf), Hu.
    destruct Hc as [[-> ->] | ->]; destruct Hup as [[-> ->] | ->]; reflexivity.
Qed.

(** *** Credential secrecy *)

Lemma signup_success_inv (db db' : DB) (user : UserSignup.t) (salt : string)
    (now : Z) (oid : ObjectId) (r : Doc) :
  signup db user salt now oid = (Return r, db') ->
  exists hashed,
    hashpw (UserSignup.password user) salt = Some hashed
    /\ r = signup_response oid
    /\ db' = with_user db (new_user user hashed now oid).
Proof.
  unfold signup.
  destruct (find_one _ _); [discriminate|].
  destruct (hashpw _ salt) as [hashed|]; [|discriminate].
  destruct (insert_one _ _ _) as [e | [i c]] eqn:Hi; [discriminate|].
  apply insert_one_inv in Hi. destruct Hi as (-> & -> & _).
  intros [= <- <-]. exists hashed. repeat split.
Qed.

Lemma insert_one_raises (c : Collection) (oid : ObjectId) (d : Doc) (e : Exc) :
  insert_one c oid d = inl e -> e = DuplicateKeyError.
Proof.
  unfold insert_one.
  destruct (existsb _ _); [now intros [= <-]|].
  destruct (violates_unique _ _); [now intros [= <-] | discriminate].
Qed.

(** Every answer [signup] can give. *)
Lemma signup_answers (db : DB) (user : UserSignup.t) (salt : string)
    (now : Z) (oid : ObjectId) :
  In (fst (signup db user salt now oid))
     [ Return (signup_response oid); RaiseHTTP user_already_exists;
       Raise DuplicateKeyError; Raise ValueError ].
Proof.
  unfold signup.
  destruct (find_one _ _); [cbn; tauto|].
  destruct (hashpw _ salt) as [hashed|]; [|cbn; tauto].
  destruct (insert_one _ _ _) as [e | [i c]] eqn:Hi.
  - apply insert_one_raises in Hi. subst e. cbn. tauto.
  - apply insert_one_inv in Hi. destruct Hi as (-> & _). cbn. tauto.
Qed.

Lemma doc_get_redact (d : Doc) (k : string) :
  k <> "password" -> doc_get (redact d) k = doc_get d k.
Proof.
  intros Hk. induction d as [|[k' v] r IH]; [reflexivity|].
  cbn [redact filter fst doc_get].
  destruct (String.eqb k' "password") eqn:E; cbn [negb doc_get].
  - apply String.eqb_eq in E. subst k'.
    apply String.eqb_neq in Hk. rewrite String.eqb_sym, Hk. exact IH.
  - destruct (String.eqb k' k); [reflexivity | exact IH].
Qed.

Lemma login_success_inv (db : DB) (user : UserLogin.t) (now : Z)
    (tok : Token.t) :
  login cfg db user now = Return tok ->
  exists user_doc name email,
    find_one (users db) (by_email (UserLogin.email user)) = Some user_doc
    /\ doc_get (doc_fields user_doc) "name" = Some (VStr name)
    /\ doc_get (doc_fields user_doc) "email" = Some (VStr email)
    /\ tok = {| Token.access_token :=
                  create_access_token cfg
                    [("sub", VStr (ObjectId_str (doc_id user_doc)))]
                    (Some (timedelta_minutes
                             (JWT_ACCESS_TOKEN_EXPIRE_MINUTES cfg))) now;
                Token.token_type := "bearer";
                Token.user_id := ObjectId_str (doc_id user_doc);
                Token.name := name;
                Token.email := email |}.
Proof.
  unfold login, by_email, getitem.
  destruct (find_one _ _) as [user_doc|]; [|discriminate].
  destruct (doc_get (doc_fields user_doc) "password") as [[ | h | | | ]|];
    cbn [bind encode_utf8]; try discriminate.
  destruct (checkpw _ h) as [[|]|]; cbn [negb]; try discriminate.
  destruct (doc_get (doc_fields user_doc) "name")
    as [[ | n | | | ]|] eqn:Hn; cbn [bind as_str]; try discriminate;
    destruct (doc_get (doc_fields user_doc) "email")
      as [[ | e | | | ]|] eqn:He; cbn [bind as_str]; try discriminate.
  intros [= <-]. now exists user_doc, n, e.
Qed.

(** [login] reads the stored [password] field through [password_check]
    alone: the rest of its answer is made of the record's id, [name] and
    [email]. *)
Lemma login_factors (db : DB) (user : UserLogin.t) (now : Z)
    (user_doc : Document) :
  find_one (users db) (by_email (UserLogin.email user)) = Some user_doc ->
  login cfg db user now
  = (verified <- password_check (UserLogin.password user) (doc_fields user_doc) ;;
     if negb verified then RaiseHTTP invalid_email_or_password
     else
       name <- getitem (doc_fields user_doc) "name" ;;
       email <- getitem (doc_fields user_doc) "email" ;;
       name <- as_str name ;;
       email <- as_str email ;;
       Return {| Token.access_token :=
                   create_access_token cfg
                     [("sub", VStr (ObjectId_str (doc_id user_doc)))]
                     (Some (timedelta_minutes
                              (JWT_ACCESS_TOKEN_EXPIRE_MINUTES cfg))) now;
                 Token.token_type := "bearer";
                 Token.user_id := ObjectId_str (doc_id user_doc);
                 Token.name := name;
                 Token.email := email |}).
Proof.
  unfold login, by_email, password_check, getitem. intros ->.
  destruct (doc_get (doc_fields user_doc) "password") as [[ | h | | | ]|];
    cbn [bind encode_utf8]; try reflexivity.
  destruct (checkpw _ h) as [[|]|]; reflexivity.
Qed.

(** Every answer [login] can give. *)
Lemma login_answers (db : DB) (user : UserLogin.t) (now : Z) :
  (exists tok, login cfg db user now = Return tok)
  \/ login cfg db user now = RaiseHTTP invalid_email_or_password
  \/ exists e,
       login cfg db user now = Raise e
       /\ In e [ KeyError "password"; AttributeError; ValueError;
                 KeyError "name"; KeyError "email"; ValidationError ].
Proof.
  unfold login, getitem.
  destruct (find_one _ _) as [user_doc|]; [|tauto].
  destruct (doc_get (doc_fields user_doc) "password") as [[ | h | | | ]|];
    cbn [bind encode_utf8];
    try (right; right; eexists; split; [reflexivity | cbn; tauto]).
  destruct (checkpw _ h) as [[|]|]; cbn [negb];
    [ | tauto | right; right; eexists; split; [reflexivity | cbn; tauto] ].
  destruct (doc_get (doc_fields user_doc) "name") as [[ | n | | | ]|];
    cbn [bind as_str];
    destruct (doc_get (doc_fields user_doc) "email") as [[ | e | | | ]|];
    cbn [bind as_str];
    try (left; eexists; reflexivity);
    right; right; eexists; (split; [reflexivity | cbn; tauto]).
Qed.

(** C5. The record [signup] persists holds, in its [password] field, the
    digest [bcrypt.hashpw] returned and nothing else of the password; no
    answer of [signup] carries the password or the digest.  No answer of
    [login] carries the stored digest either: a successful one has exactly
    the fields [access_token], [token_type], [user_id], [name] and
    [email], a refusal is the one fixed 401, an error names at most a
    field, and the whole answer, refusals and errors included, is the same
    for any two stored digests on which the password check comes out the
    same.  The audio and onboarding routes do not read the user records. *)
Theorem credential_secrecy (db : DB) :
  (forall user salt now oid r db',
      signup db user salt now oid = (Return r, db') ->
      exists hashed,
        hashpw (UserSignup.password user) salt = Some hashed
        /\ documents (users db')
           = (documents (users db) ++ [new_user user hashed now oid])%list
        /\ doc_fields (new_user user hashed now oid)
           = [ ("email", VStr (UserSignup.email user));
               ("name", VStr (UserSignup.name user));
               ("password", VStr hashed);
               ("createdAt", VDate (now / 1000 * 1000)) ]
        /\ r = signup_response oid)
  /\ (forall user salt now oid,
        In (fst (signup db user salt now oid))
           [ Return (signup_response oid); RaiseHTTP user_already_exists;
             Raise DuplicateKeyError; Raise ValueError ])
  /\ (forall user now,
        (exists tok,
            login cfg db user now = Return tok
            /\ doc_keys (Token.to_json tok)
               = ["access_token"; "token_type"; "user_id"; "name"; "email"]
            /\ doc_get (Token.to_json tok) "password" = None)
        \/ login cfg db user now = RaiseHTTP invalid_email_or_password
        \/ exists e,
             login cfg db user now = Raise e
             /\ In e [ KeyError "password"; AttributeError; ValueError;
                       KeyError "name"; KeyError "email"; ValidationError ])
  /\ (forall db2 user now d1 d2,
        find_one (users db) (by_email (UserLogin.email user)) = Some d1 ->
        find_one (users db2) (by_email (UserLogin.email user)) = Some d2 ->
        doc_id d1 = doc_id d2 ->
        redact (doc_fields d1) = redact (doc_fields d2) ->
        password_check (UserLogin.password user) (doc_fields d1)
        = password_check (UserLogin.password user) (doc_fields d2) ->
        login cfg db2 user now = login cfg db user now)
  /\ (forall db2,
        audio_urls db2 = audio_urls db ->
        onboarding_profiles db2 = onboarding_profiles db ->
        (forall lang, get_audio_url db2 lang = get_audio_url db lang)
        /\ (forall user_id,
              get_onboarding_profile db2 user_id
              = get_onboarding_profile db user_id)
        /\ (forall data now1 now2 oid,
              fst (create_onboarding_profile db2 data now1 now2 oid)
              = fst (create_onboarding_profile db data now1 now2 oid))).
Proof.
  split; [|split; [|split; [|split]]].
  - intros user salt now oid r db' Hs.
    apply signup_success_inv in Hs. destruct Hs as (hashed & Hh & -> & ->).
    exists hashed. repeat split. exact Hh.
  - apply signup_answers.
  - intros user now.
    destruct (login_answers db user now) as [[tok Ht] | [H | H]]; [|tauto|tauto].
    left. exists tok. repeat split. exact Ht.
  - intros db2 user now d1 d2 H1 H2 Hid Hr Hp.
    rewrite (login_factors _ _ _ _ H1), (login_factors _ _ _ _ H2).
    rewrite Hp, Hid. unfold getitem.
    rewrite <- (doc_get_redact (doc_fields d1) "name") by discriminate.
    rewrite <- (doc_get_redact (doc_fields d1) "email") by discriminate.
    rewrite <- (doc_get_redact (doc_fields d2) "name") by discriminate.
    rewrite <- (doc_get_redact (doc_fields d2) "email") by discriminate.
    now rewrite Hr.
  - intros db2 Ha Ho. repeat split.
    + intros lang. unfold get_audio_url. now rewrite Ha.
    + intros user_id. unfold get_onboarding_profile. now rewrite Ho.
    + intros data now1 now2 oid. unfold create_onboarding_profile.
      rewrite Ho. now destruct (insert_one _ _ _) as [e | [i c]].
Qed.

(** *** Emails: the domain is normalized, the local part is not *)

Lemma matches_new_user_email (user : UserSignup.t) (hashed : string) (now : Z)
    (oid : ObjectId) (e : string) :
  matches (by_email e) (new_user user hashed now oid)
  = String.eqb (UserSignup.email user) e.
Proof. reflexivity. Qed.

(** [signup] stores the email of the request model as it is, and the lookup
    by email of [login] compares strings: after a signup, an email that no
    user had before finds the new user when it is the very string that was
    signed up, and otherwise finds nobody, so that the login is rejected
    with the 401 whatever the password. *)
Lemma email_lookup_is_exact (db : DB) (user : UserSignup.t)
    (salt hashed : string) (t0 : Z) (oid : ObjectId) (e : string) :
  find_one (users db) (by_email (UserSignup.email user)) = None ->
  hashpw (UserSignup.password user) salt = Some hashed ->
  find_one (users db) (ById oid) = None ->
  incl (unique_indexes (users db)) [["email"]] ->
  find_one (users db) (by_email e) = None ->
  exists db',
    signup db user salt t0 oid = (Return (signup_response oid), db')
    /\ doc_get (doc_fields (new_user user hashed t0 oid)) "email"
       = Some (VStr (UserSignup.email user))
    /\ documents (users db')
       = (documents (users db) ++ [new_user user hashed t0 oid])%list
    /\ (e = UserSignup.email user ->
        find_one (users db') (by_email e) = Some (new_user user hashed t0 oid))
    /\ (e <> UserSignup.email user ->
        find_one (users db') (by_email e) = None
        /\ forall password t1,
             login cfg db' {| UserLogin.email := e;
                              UserLogin.password := password |} t1
             = RaiseHTTP invalid_email_or_password).
Proof.
  intros He Hh Hid Hidx Hne.
  exists (with_user db (new_user user hashed t0 oid)).
  split; [now apply signup_fresh|]. split; [reflexivity|].
  split; [reflexivity|]. split.
  - intros ->. now apply find_new_user_by_email.
  - intros Hd.
    assert (Hf : find_one (users (with_user db (new_user user hashed t0 oid)))
                   (by_email e) = None).
    { unfold find_one in *. cbn [with_user users documents].
      rewrite find_app, Hne. cbn [find].
      rewrite matches_new_user_email.
      destruct (String.eqb_spec (UserSignup.email user) e); congruence. }
    split; [exact Hf|].
    intros password t1. now apply login_unknown_email.
Qed.

Section EmailCase.
Context {pydantic_laws : PydanticLaws pydantic}.


End EmailCase.

(** *** Two signups at once *)

Lemma signup_as_steps (db : DB) (user : UserSignup.t) (salt : string)
    (now : Z) (oid : ObjectId) :
  let (t1, db1) := signup_step db (AwaitFind user salt now oid) in
  let (t2, db2) := signup_step db1 t1 in
  t2 = Finished (fst (signup db user salt now oid))
  /\ db2 = snd (signup db user salt now oid).
Proof.
  unfold signup. cbn [signup_step].
  destruct (find_one _ _); cbn [signup_step]; [now split|].
  destruct (hashpw _ salt) as [hashed|]; cbn [signup_step]; [|now split].
  destruct (insert_one _ _ _) as [e | [i c]]; now split.
Qed.

Lemma existsb_app_last {A : Type} (f : A -> bool) (l : list A) (a : A) :
  f a = true -> existsb f (l ++ [a]) = true.
Proof.
  intros Ha. rewrite existsb_app. cbn [existsb]. rewrite Ha.
  now rewrite orb_true_r.
Qed.

(** Under the unique index, a second record with the email of the record
    just stored is refused by the store. *)
Lemma insert_one_same_email (db : DB) (u1 u2 : UserSignup.t)
    (h1 h2 : string) (n1 n2 : Z) (o1 o2 : ObjectId) :
  UserSignup.email u1 = UserSignup.email u2 ->
  In ["email"] (unique_indexes (users db)) ->
  insert_one (users (with_user db (new_user u1 h1 n1 o1))) o2
    (user_doc_of u2 h2 n2)
  = inl DuplicateKeyError.
Proof.
  intros He Hidx. unfold insert_one.
  destruct (existsb _ _); [reflexivity|].
  replace (violates_unique _ _) with true; [reflexivity|].
  symmetry. unfold violates_unique. apply existsb_exists.
  exists ["email"]. split; [exact Hidx|].
  cbn [with_user users documents]. apply existsb_app_last.
  cbn. rewrite He. apply String.eqb_refl.
Qed.

Lemma step_find_absent (db : DB) (user : UserSignup.t) (salt hashed : string)
    (now : Z) (oid : ObjectId) :
  find_one (users db) (by_email (UserSignup.email user)) = None ->
  hashpw (UserSignup.password user) salt = Some hashed ->
  signup_step db (AwaitFind user salt now oid)
  = (AwaitInsert (user_doc_of user hashed now) oid, db).
Proof. unfold by_email. cbn [signup_step]. now intros -> ->. Qed.

Lemma step_find_present (db : DB) (user : UserSignup.t) (salt : string)
    (now : Z) (oid : ObjectId) (existing : Document) :
  find_one (users db) (by_email (UserSignup.email user)) = Some existing ->
  signup_step db (AwaitFind user salt now oid)
  = (Finished (RaiseHTTP user_already_exists), db).
Proof. unfold by_email. cbn [signup_step]. now intros ->. Qed.

Lemma step_insert_fresh (db : DB) (user : UserSignup.t) (hashed : string)
    (now : Z) (oid : ObjectId) :
  find_one (users db) (by_email (UserSignup.email user)) = None ->
  find_one (users db) (ById oid) = None ->
  incl (unique_indexes (users db)) [["email"]] ->
  signup_step db (AwaitInsert (user_doc_of user hashed now) oid)
  = (Finished (Return (signup_response oid)),
     with_user db (new_user user hashed now oid)).
Proof.
  intros He Hid Hidx. cbn [signup_step].
  rewrite insert_one_ok; [reflexivity | exact Hid |].
  now apply (email_unique_ok _ (UserSignup.email user)).
Qed.

Lemma step_insert_refused (db : DB) (user_doc : Doc) (oid : ObjectId)
    (e : Exc) :
  insert_one (users db) oid user_doc = inl e ->
  signup_step db (AwaitInsert user_doc oid) = (Finished (Raise e), db).
Proof. cbn [signup_step]. now intros ->. Qed.

(** C7. Two signups with one email and passwords that bcrypt takes,
    scheduled so that both look the email up before either inserts: the
    first succeeds, and the second is stopped by the unique index of the
    store, whose [DuplicateKeyError] no handler turns into the 400 "User
    already exists".  The loser is answered with a 500. *)
Theorem concurrent_signup_race (db : DB) (u1 u2 : UserSignup.t)
    (s1 s2 h1 h2 : string) (n1 n2 : Z) (o1 o2 : ObjectId) :
  UserSignup.email u1 = UserSignup.email u2 ->
  hashpw (UserSignup.password u1) s1 = Some h1 ->
  hashpw (UserSignup.password u2) s2 = Some h2 ->
  find_one (users db) (by_email (UserSignup.email u1)) = None ->
  find_one (users db) (ById o1) = None ->
  unique_indexes (users db) = [["email"]] ->
  let '(a, b, db') :=
    run_signups [true; false; true; false] db
      (AwaitFind u1 s1 n1 o1) (AwaitFind u2 s2 n2 o2) in
  outcome a = Some (Return (signup_response o1))
  /\ outcome b = Some (Raise DuplicateKeyError)
  /\ option_map http_status (outcome b) = Some 500
  /\ outcome b <> Some (RaiseHTTP user_already_exists)
  /\ db' = with_user db (new_user u1 h1 n1 o1).
Proof.
  intros He Hh1 Hh2 Hf Hid Hidx.
  assert (Hf2 : find_one (users db) (by_email (UserSignup.email u2)) = None)
    by (now rewrite <- He).
  assert (Hincl : incl (unique_indexes (users db)) [["email"]])
    by (rewrite Hidx; apply incl_refl).
  cbn [run_signups].
  rewrite (step_find_absent _ _ _ _ _ _ Hf Hh1).
  rewrite (step_find_absent _ _ _ _ _ _ Hf2 Hh2).
  rewrite (step_insert_fresh _ _ _ _ _ Hf Hid Hincl).
  rewrite (step_insert_refused _ _ _ DuplicateKeyError)
    by (apply insert_one_same_email; [exact He | rewrite Hidx; now left]).
  repeat split. discriminate.
Qed.

(** X14. Without the index that [setup_database] creates, the lookup alone
    does not keep the emails unique: in the same race two signups whose
    passwords bcrypt takes both succeed. *)
Lemma concurrent_signup_race_without_index (db : DB) (u1 u2 : UserSignup.t)
    (s1 s2 h1 h2 : string) (n1 n2 : Z) (o1 o2 : ObjectId) :
  UserSignup.email u1 = UserSignup.email u2 ->
  hashpw (UserSignup.password u1) s1 = Some h1 ->
  hashpw (UserSignup.password u2) s2 = Some h2 ->
  find_one (users db) (by_email (UserSignup.email u1)) = None ->
  find_one (users db) (ById o1) = None ->
  find_one (users db) (ById o2) = None ->
  o1 <> o2 ->
  unique_indexes (users db) = [] ->
  let '(a, b, db') :=
    run_signups [true; false; true; false] db
      (AwaitFind u1 s1 n1 o1) (AwaitFind u2 s2 n2 o2) in
  outcome a = Some (Return (signup_response o1))
  /\ outcome b = Some (Return (signup_response o2))
  /\ documents (users db')
     = (documents (users db)
          ++ [new_user u1 h1 n1 o1; new_user u2 h2 n2 o2])%list.
Proof.
  intros He Hh1 Hh2 Hf1 Hid1 Hid2 Hneq Hidx.
  assert (Hf2 : find_one (users db) (by_email (UserSignup.email u2)) = None)
    by (now rewrite <- He).
  assert (Hincl : incl (unique_indexes (users db)) [["email"]])
    by (rewrite Hidx; intros x []).
  cbn [run_signups].
  rewrite (step_find_absent _ _ _ _ _ _ Hf1 Hh1).
  rewrite (step_find_absent _ _ _ _ _ _ Hf2 Hh2).
  rewrite (step_insert_fresh _ _ _ _ _ Hf1 Hid1 Hincl).
  cbn [signup_step].
  rewrite insert_one_ok.
  - cbn [outcome users documents with_user]. repeat split.
    now rewrite <- app_assoc.
  - unfold find_one in *. cbn [with_user users documents].
    rewrite find_app, Hid2. cbn [find matches new_user doc_id].
    destruct (ObjectId_eqb o1 o2) eqn:E; [|reflexivity].
    apply ObjectId_eqb_eq in E. contradiction.
  - unfold violates_unique. cbn [with_user users unique_indexes].
    now rewrite Hidx.
Qed.

End Properties.

(** ** The set-up script *)

Lemma create_index_unique_inv (c c' : Collection) (p : list string) :
  create_index c p true = inr c' ->
  In p (unique_indexes c') /\ documents c' = documents c.
Proof.
  unfold create_index.
  destruct (distinct_keys p (documents c)); [|discriminate].
  intros [= <-]. cbn [unique_indexes documents]. split; [|reflexivity].
  destruct (existsb _ (unique_indexes c)) eqn:E.
  - apply existsb_exists in E. destruct E as (q & Hq & Heq).
    destruct (list_eq_dec string_dec q p); [now subst | discriminate].
  - apply in_or_app. right. now left.
Qed.

(** After [setup_database], [users] has its unique index on [email] and the
    user records are the ones it had. *)
Lemma setup_database_users {datetime : Datetime} (db db' : DB)
    (t1 t2 t3 t4 : Z) (oid1 oid2 : ObjectId) :
  setup_database db t1 t2 t3 t4 oid1 oid2 = Return db' ->
  In ["email"] (unique_indexes (users db'))
  /\ documents (users db') = documents (users db).
Proof.
  unfold setup_database, lift.
  destruct (create_index (audio_urls db) _ _); cbn [bind]; [discriminate|].
  destruct (create_index (onboarding_profiles db) _ _); cbn [bind];
    [discriminate|].
  destruct (create_index (users db) ["email"] true) as [e | usrs] eqn:Hu;
    cbn [bind create_index]; [discriminate|].
  destruct (seed _ _); cbn [bind]; try discriminate.
  intros [= <-]. cbn [users]. now apply create_index_unique_inv.
Qed.

Lemma demo_setup_succeeds :
  setup_database (datetime := demo_datetime) empty_db 0 0 0 0 demo_oid demo_oid'
  = Return demo_seeded_db
  /\ unique_indexes (users demo_seeded_db) = [["email"]]
  /\ List.length (documents (audio_urls demo_seeded_db)) = 2%nat.
Proof. vm_compute. repeat split. Qed.

(** ** The contracts hold of the small instance *)

Lemma demo_bcrypt_laws : BcryptLaws demo_bcrypt.
Proof.
  constructor. intros password salt hashed.
  cbn [hashpw checkpw demo_bcrypt].
  destruct (72 <? String.length password)%nat; [discriminate|].
  intros [= <-]. cbn [demo_digest append]. now rewrite String.eqb_refl.
Qed.

Lemma demo_jose_laws : JoseLaws demo_jose.
Proof.
  constructor. intros claims key alg now sub exp Hs _ _.
  cbn [jwt_encode jwt_decode demo_jose]. rewrite Hs.
  exists [("sub", VStr sub)]. split; reflexivity.
Qed.

Lemma demo_split_append (local d : string) :
  demo_split (local ++ "@" ++ d)
  = match demo_split local with
    | Some (l, r) => Some (l, r ++ "@" ++ d)
    | None => Some (local, d)
    end.
Proof.
  induction local as [|c r IH]; [reflexivity|].
  cbn [append demo_split].
  destruct (Ascii.eqb c "@"); [reflexivity|].
  change (r ++ String "@" d) with (r ++ "@" ++ d). rewrite IH.
  now destruct (demo_split r) as [[l r']|].
Qed.

Lemma has_at_append (r d : string) : has_at (r ++ "@" ++ d) = true.
Proof.
  induction r as [|c r IH]; [reflexivity|].
  cbn [append has_at].
  change (r ++ String "@" d) with (r ++ "@" ++ d).
  rewrite IH. apply orb_true_r.
Qed.

Lemma at_lower_ascii (c : ascii) :
  Ascii.eqb (lower_ascii c) "@" = Ascii.eqb c "@".
Proof. destruct c as [[] [] [] [] [] [] [] []]; reflexivity. Qed.

Lemma has_at_lower (d : string) : has_at (lower d) = has_at d.
Proof.
  induction d as [|c r IH]; [reflexivity|].
  cbn [lower has_at]. now rewrite at_lower_ascii, IH.
Qed.

Lemma empty_lower (d : string) : String.eqb (lower d) "" = String.eqb d "".
Proof. now destruct d. Qed.

Lemma demo_pydantic_laws : PydanticLaws demo_pydantic.
Proof.
  constructor. intros local domain1 domain2 Hl.
  cbn [EmailStr demo_pydantic]. rewrite !demo_split_append.
  destruct (demo_split local) as [[l r]|].
  - now rewrite !has_at_append, !andb_false_r.
  - rewrite <- (empty_lower domain1), <- (empty_lower domain2).
    rewrite <- (has_at_lower domain1), <- (has_at_lower domain2).
    now rewrite Hl.
Qed.

(** ** The theorems at concrete requests *)

Lemma signup_login_token_resolves_witness :
  exists db' tok current,
    signup (bcrypt := demo_bcrypt) empty_db demo_user "salt" 0 demo_oid
    = (Return (signup_response demo_oid), db')
    /\ login (bcrypt := demo_bcrypt) (jose := demo_jose) demo_config db'
         {| UserLogin.email := UserSignup.email demo_user;
            UserLogin.password := UserSignup.password demo_user |} 60000000
       = Return tok
    /\ get_current_user (jose := demo_jose) demo_config db'
         (Token.access_token tok) 120000000 = Return current
    /\ doc_get (signup_response demo_oid) "userId"
       = Some (VStr (ObjectId_str (doc_id current)))
    /\ Token.user_id tok = ObjectId_str (doc_id current).
Proof.
  apply (signup_login_token_resolves (bcrypt_laws := demo_bcrypt_laws)
           (jose_laws := demo_jose_laws) demo_config empty_db demo_user
           "salt" "$demo$hunter2" 0 60000000 120000000 demo_oid).
  - reflexivity.
  - reflexivity.
  - reflexivity.
  - reflexivity.
  - intros x [].
  - vm_compute. discriminate.
Defined.

Lemma get_current_user_unparsable_subject_witness :
  get_current_user (jose := demo_jose) demo_config demo_db "sub=abc" 0
  = Raise InvalidId
  /\ http_status
       (get_current_user (jose := demo_jose) demo_config demo_db "sub=abc" 0)
     = 500
  /\ get_current_user (jose := demo_jose) demo_config demo_db "sub=abc" 0
     <> RaiseHTTP credentials_exception.
Proof.
  apply (get_current_user_unparsable_subject (jose := demo_jose) demo_config
           demo_db "sub=abc" 0 [("sub", VStr "abc")] "abc");
    reflexivity.
Defined.


Lemma signup_refused_password_is_500_witness :
  signup (bcrypt := demo_bcrypt) demo_db demo_long_user "salt" 0 demo_oid'
  = (Raise ValueError, demo_db)
  /\ http_status
       (fst (signup (bcrypt := demo_bcrypt) demo_db demo_long_user "salt" 0
               demo_oid')) = 500
  /\ is_success
       (fst (signup (bcrypt := demo_bcrypt) demo_db demo_long_user "salt" 0
               demo_oid')) = false
  /\ documents
       (users (snd (signup (bcrypt := demo_bcrypt) demo_db demo_long_user
                      "salt" 0 demo_oid')))
     = documents (users demo_db).
Proof.
  apply (signup_refused_password_is_500 (bcrypt := demo_bcrypt) demo_db
           demo_long_user "salt" 0 demo_oid');
    reflexivity.
Defined.

Lemma credential_secrecy_witness :
  (exists hashed,
      hashpw (Bcrypt := demo_bcrypt) (UserSignup.password demo_user) "salt"
      = Some hashed
      /\ documents (users demo_db)
         = (documents (users empty_db)
              ++ [new_user demo_user hashed 0 demo_oid])%list
      /\ doc_fields (new_user demo_user hashed 0 demo_oid)
         = [ ("email", VStr (UserSignup.email demo_user));
             ("name", VStr (UserSignup.name demo_user));
             ("password", VStr hashed);
             ("createdAt", VDate (0 / 1000 * 1000)) ]
      /\ signup_response demo_oid = signup_response demo_oid)
  /\ login (bcrypt := demo_bcrypt) (jose := demo_jose) demo_config
       demo_other_digest_db (demo_login "Bob@example.com" "letmein") 7
     = login (bcrypt := demo_bcrypt) (jose := demo_jose) demo_config
         demo_db (demo_login "Bob@example.com" "letmein") 7
  /\ login (bcrypt := demo_bcrypt) (jose := demo_jose) demo_config
       demo_db (demo_login "Bob@example.com" "letmein") 7
     = RaiseHTTP invalid_email_or_password.
Proof.
  split; [|split].
  - apply (proj1 (credential_secrecy (bcrypt := demo_bcrypt)
                    (jose := demo_jose) (datetime := demo_datetime)
                    (pystr := demo_pystr) demo_config empty_db)
             demo_user "salt" 0 demo_oid (signup_response demo_oid) demo_db).
    reflexivity.
  - apply (proj1 (proj2 (proj2 (proj2
             (credential_secrecy (bcrypt := demo_bcrypt) (jose := demo_jose)
                (datetime := demo_datetime) (pystr := demo_pystr)
                demo_config demo_db))))
             demo_other_digest_db (demo_login "Bob@example.com" "letmein") 7
             (new_user demo_user "$demo$hunter2" 0 demo_oid)
             (new_user demo_user "$demo$swordfish" 0 demo_oid));
      reflexivity.
  - reflexivity.
Defined.

Lemma get_audio_url_lowercase_lookup_witness :
  http_status (get_audio_url (pystr := demo_pystr) demo_audio_db "Klingon") = 404
  /\ get_audio_url (pystr := demo_pystr) demo_audio_db "ENGLISH"
     = Return {| AudioResponse.language := str_lower (PyStr := demo_pystr) "ENGLISH";
                 AudioResponse.audioUrl :=
                   "https://example.com/audio/english_sample.mp3";
                 AudioResponse.createdAt := "";
                 AudioResponse.updatedAt := "" |}
  /\ get_audio_url (pystr := demo_pystr) demo_created_only_db "English"
     = Return {| AudioResponse.language := str_lower (PyStr := demo_pystr) "English";
                 AudioResponse.audioUrl :=
                   "https://example.com/audio/english_sample.mp3";
                 AudioResponse.createdAt := "2024-01-01T00:00:00";
                 AudioResponse.updatedAt := "" |}.
Proof.
  split; [|split].
  - apply (proj1 (get_audio_url_lowercase_lookup (pystr := demo_pystr)
                    demo_audio_db "Klingon")).
    reflexivity.
  - apply (proj2 (proj2 (proj2 (proj2
             (get_audio_url_lowercase_lookup (pystr := demo_pystr)
                demo_audio_db "ENGLISH"))))
             demo_audio_doc "https://example.com/audio/english_sample.mp3"
             "" "");
      try reflexivity; left; split; reflexivity.
  - apply (proj2 (proj2 (proj2 (proj2
             (get_audio_url_lowercase_lookup (pystr := demo_pystr)
                demo_created_only_db "English"))))
             demo_created_only_doc
             "https://example.com/audio/english_sample.mp3"
             "2024-01-01T00:00:00" "");
      try reflexivity; [right | left; split]; reflexivity.
Defined.

Lemma concurrent_signup_race_witness :
  let '(a, b, db') :=
    run_signups (bcrypt := demo_bcrypt) [true; false; true; false]
      demo_seeded_db
      (AwaitFind demo_user "salt" 0 demo_oid)
      (AwaitFind demo_user "pepper" 1 demo_oid') in
  outcome a = Some (Return (signup_response demo_oid))
  /\ outcome b = Some (Raise DuplicateKeyError)
  /\ option_map http_status (outcome b) = Some 500
  /\ outcome b <> Some (RaiseHTTP user_already_exists)
  /\ db' = with_user demo_seeded_db
             (new_user demo_user "$demo$hunter2" 0 demo_oid).
Proof.
  apply (concurrent_signup_race (bcrypt := demo_bcrypt) demo_seeded_db
           demo_user demo_user "salt" "pepper" "$demo$hunter2" "$demo$hunter2"
           0 1 demo_oid demo_oid');
    reflexivity.
Defined.



(** ** Runs of the seeded store *)

Example audio_english_after_seeding :
  get_audio_url (pystr := demo_pystr) demo_seeded_db "English"
  = Return {| AudioResponse.language := "english";
              AudioResponse.audioUrl :=
                "https://example.com/audio/english_sample.mp3";
              AudioResponse.createdAt := "2024-01-01T00:00:00";
              AudioResponse.updatedAt := "2024-01-01T00:00:00" |}.
Proof. reflexivity. Qed.

Example audio_klingon_after_seeding :
  http_status (get_audio_url (pystr := demo_pystr) demo_seeded_db "klingon") = 404.
Proof. reflexivity. Qed.

Example object_id_text :
  ObjectId_str demo_oid = "650f1a2b3c4d5e6f708192a3"
  /\ ObjectId_of_str "650F1A2B3C4D5E6F708192A3" = Some demo_oid
  /\ ObjectId_of_str "650f1a2b3c4d5e6f708192a" = None
  /\ ObjectId_of_str "650f1a2b3c4d5e6f708192zz" = None.
Proof. repeat split. Qed.

(** * Further properties of the handlers *)

(** ** The text of an ObjectId *)

Lemma unhex_lower_ascii (c : ascii) : unhex (lower_ascii c) = unhex c.
Proof. destruct c as [[] [] [] [] [] [] [] []]; reflexivity. Qed.

Lemma unhex_digit (c : ascii) (n : N) :
  unhex c = Some n -> hexdigit n = lower_ascii c /\ (n < 16)%N.
Proof.
  destruct c as [[] [] [] [] [] [] [] []]; cbv; intros H;
    try discriminate H; injection H as <-; split; reflexivity.
Qed.

Lemma length_lower (s : string) : String.length (lower s) = String.length s.
Proof. induction s as [|c r IH]; cbn [lower String.length]; congruence. Qed.

Lemma fromhex_lower_pair (s : string) :
  fromhex (lower s) = fromhex s
  /\ forall c, fromhex (lower (String c s)) = fromhex (String c s).
Proof.
  induction s as [|c2 r [IH1 IH2]].
  - split; [reflexivity|]. intros c. reflexivity.
  - split; [apply IH2|]. intros c.
    cbn [lower fromhex]. now rewrite !unhex_lower_ascii, IH1.
Qed.

(** [ObjectId(s)] reads upper-case and lower-case digits alike. *)
Lemma ObjectId_of_str_lower (s : string) :
  ObjectId_of_str (lower s) = ObjectId_of_str s.
Proof.
  unfold ObjectId_of_str. rewrite length_lower.
  destruct (String.length s =? 24)%nat; [|reflexivity].
  apply fromhex_lower_pair.
Qed.

Lemma byte_of_digits (h l : N) (b : byte) :
  (l < 16)%N -> Byte.of_N (16 * h + l) = Some b ->
  (Byte.to_N b / 16 = h)%N /\ (Byte.to_N b mod 16 = l)%N.
Proof.
  intros Hl Hb. apply Byte.to_of_N in Hb. rewrite Hb. split.
  - symmetry. apply (N.div_unique _ _ h l); [exact Hl | reflexivity].
  - symmetry. apply (N.mod_unique _ _ h l); [exact Hl | reflexivity].
Qed.

Lemma hexlify_fromhex_pair (s : string) :
  (forall o, fromhex s = Some o -> hexlify o = lower s)
  /\ forall c o, fromhex (String c s) = Some o -> hexlify o = lower (String c s).
Proof.
  induction s as [|c2 r [IH1 IH2]].
  - split.
    + intros o [= <-]. reflexivity.
    + intros c o H. discriminate H.
  - split; [apply IH2|]. intros c o. cbn [fromhex].
    destruct (unhex c) as [h|] eqn:Hh; [|discriminate].
    destruct (unhex c2) as [l|] eqn:Hl; [|discriminate].
    destruct (fromhex r) as [bs|] eqn:Hr; [|discriminate].
    destruct (Byte.of_N (16 * h + l)) as [b|] eqn:Hb; [|discriminate].
    intros [= <-].
    apply unhex_digit in Hh, Hl. destruct Hh as [Hh _]. destruct Hl as [Hl Hlt].
    destruct (byte_of_digits h l b Hlt Hb) as [Hd Hm].
    cbn [hexlify lower]. rewrite Hd, Hm, Hh, Hl. now rewrite (IH1 bs).
Qed.

(** [str(ObjectId(s))] is [s] in lower case. *)
Lemma ObjectId_str_of_str (s : string) (o : ObjectId) :
  ObjectId_of_str s = Some o -> ObjectId_str o = lower s.
Proof.
  unfold ObjectId_of_str, ObjectId_str.
  destruct (String.length s =? 24)%nat; [|discriminate].
  apply hexlify_fromhex_pair.
Qed.

Section Coverage.
Context {bcrypt : Bcrypt} {jose : Jose} {datetime : Datetime} {pystr : PyStr}.
Variable cfg : Config.

(** ** The session authenticator *)

(** X2. Whenever [get_current_user] lets a request through, the user it
    returns is a stored record, the first one whose [_id] is the subject
    of the decoded token. *)
Theorem get_current_user_returns_subject (db : DB) (token : string) (now : Z)
    (user : Document) :
  get_current_user cfg db token now = Return user ->
  exists payload user_id,
    jwt_decode token (JWT_SECRET_KEY cfg) [JWT_ALGORITHM cfg] now = inr payload
    /\ doc_get payload "sub" = Some (VStr user_id)
    /\ ObjectId_of_str user_id = Some (doc_id user)
    /\ ObjectId_str (doc_id user) = lower user_id
    /\ In user (documents (users db))
    /\ find_one (users db) (ById (doc_id user)) = Some user.
Proof.
  unfold get_current_user.
  destruct (jwt_decode token _ _ now) as [e | payload] eqn:Hd; [discriminate|].
  destruct (doc_get payload "sub") as [[ | user_id | | | ] | ] eqn:Hs;
    try discriminate.
  destruct (ObjectId_of_str user_id) as [oid|] eqn:Ho; [|discriminate].
  destruct (find_one (users db) (ById oid)) as [u|] eqn:Hf; [|discriminate].
  intros [= <-]. exists payload, user_id.
  pose proof Hf as Hin. apply find_some in Hin. destruct Hin as [Hin Hm].
  cbn [matches] in Hm. apply ObjectId_eqb_eq in Hm. subst oid.
  repeat split; try assumption.
  now apply ObjectId_str_of_str.
Qed.

(** ** Onboarding profiles *)

Lemma create_onboarding_profile_inv (db db' : DB) (data : OnboardingData.t)
    (now1 now2 : Z) (oid : ObjectId) (response : OnboardingResponse.t) :
  create_onboarding_profile db data now1 now2 oid = (Return response, db') ->
  response = {| OnboardingResponse.message :=
                  "Onboarding profile created successfully";
                OnboardingResponse.userId := ObjectId_str oid;
                OnboardingResponse.status := "success" |}
  /\ db' = with_profile db {| doc_id := oid;
                              doc_fields := profile_doc data now1 now2 |}
  /\ find_one (onboarding_profiles db) (ById oid) = None.
Proof.
  unfold create_onboarding_profile.
  destruct (insert_one _ _ _) as [e | [i c]] eqn:Hi; [discriminate|].
  apply insert_one_inv in Hi. destruct Hi as (-> & -> & Hid).
  intros [= <- <-]. repeat split. exact Hid.
Qed.

Lemma find_profile_after_create (db : DB) (d p : Document) (oid : ObjectId) :
  find_one (onboarding_profiles db) (ById oid) = Some p ->
  find_one (onboarding_profiles (with_profile db d)) (ById oid) = Some p.
Proof.
  unfold find_one. cbn [with_profile onboarding_profiles documents].
  rewrite find_app. now intros ->.
Qed.

(** X3. A profile that was created is read back, under the id the creation
    returned, as the very fields that were submitted plus that id; and it
    is still read back so after further profiles have been created. *)
Theorem onboarding_profile_round_trip (db db' : DB) (data : OnboardingData.t)
    (now1 now2 : Z) (oid : ObjectId) (response : OnboardingResponse.t) :
  ObjectId_valid oid ->
  create_onboarding_profile db data now1 now2 oid = (Return response, db') ->
  get_onboarding_profile db' (OnboardingResponse.userId response)
  = Return (("_id", VStr (OnboardingResponse.userId response))
              :: profile_doc data now1 now2)
  /\ forall data2 m1 m2 oid2 response2 db'',
       create_onboarding_profile db' data2 m1 m2 oid2 = (Return response2, db'') ->
       get_onboarding_profile db'' (OnboardingResponse.userId response)
       = get_onboarding_profile db' (OnboardingResponse.userId response).
Proof.
  intros Hv Hc.
  apply create_onboarding_profile_inv in Hc. destruct Hc as (-> & -> & Hid).
  cbn [OnboardingResponse.userId].
  assert (Hf : find_one
                 (onboarding_profiles
                    (with_profile db {| doc_id := oid;
                                        doc_fields := profile_doc data now1 now2 |}))
                 (ById oid)
               = Some {| doc_id := oid; doc_fields := profile_doc data now1 now2 |}).
  { unfold find_one in *. cbn [with_profile onboarding_profiles documents].
    rewrite find_app, Hid. cbn [find matches doc_id].
    now rewrite ObjectId_eqb_refl. }
  split.
  - unfold get_onboarding_profile.
    now rewrite (ObjectId_of_str_str oid Hv), Hf.
  - intros data2 m1 m2 oid2 response2 db'' Hc2.
    apply create_onboarding_profile_inv in Hc2. destruct Hc2 as (_ & -> & _).
    unfold get_onboarding_profile.
    rewrite (ObjectId_of_str_str oid Hv), Hf.
    now rewrite (find_profile_after_create _ _ _ _ Hf).
Qed.

(** X4. The id of [GET /api/onboarding/{id}] is read without regard to
    letter case: two ids that agree in lower case get the same answer, and
    the [_id] of a profile that is returned is the requested id in lower
    case. *)
Theorem get_onboarding_profile_id_case (db : DB) :
  (forall id1 id2,
      lower id1 = lower id2 ->
      get_onboarding_profile db id1 = get_onboarding_profile db id2)
  /\ (forall user_id profile,
        get_onboarding_profile db user_id = Return profile ->
        doc_get profile "_id" = Some (VStr (lower user_id))).
Proof.
  split.
  - intros id1 id2 Hl. unfold get_onboarding_profile.
    rewrite <- (ObjectId_of_str_lower id1), <- (ObjectId_of_str_lower id2).
    now rewrite Hl.
  - intros user_id profile. unfold get_onboarding_profile.
    destruct (ObjectId_of_str user_id) as [oid|] eqn:Ho; [|discriminate].
    destruct (find_one _ _) as [p|] eqn:Hf; [|discriminate].
    intros [= <-]. cbn [doc_get]. rewrite String.eqb_refl.
    apply find_some in Hf. destruct Hf as [_ Hm]. cbn [matches] in Hm.
    apply ObjectId_eqb_eq in Hm. rewrite Hm.
    now rewrite (ObjectId_str_of_str user_id oid Ho).
Qed.

(** X5. On a store with the unique index on [personalDetails.email], a
    second profile with the personal email of a profile already created is
    refused by the store: [create_onboarding_profile] ends with the
    unhandled [DuplicateKeyError], a 500, and stores nothing. *)
Theorem create_onboarding_profile_duplicate_email (db db1 : DB)
    (data1 data2 : OnboardingData.t) (n1 n2 n3 n4 : Z) (o1 o2 : ObjectId)
    (response : OnboardingResponse.t) :
  In ["personalDetails"; "email"] (unique_indexes (onboarding_profiles db)) ->
  create_onboarding_profile db data1 n1 n2 o1 = (Return response, db1) ->
  PersonalDetails.email (OnboardingData.personalDetails data2)
  = PersonalDetails.email (OnboardingData.personalDetails data1) ->
  create_onboarding_profile db1 data2 n3 n4 o2 = (Raise DuplicateKeyError, db1)
  /\ http_status (fst (create_onboarding_profile db1 data2 n3 n4 o2)) = 500.
Proof.
  intros Hidx Hc He.
  apply create_onboarding_profile_inv in Hc. destruct Hc as (_ & -> & _).
  assert (Hi : insert_one
                 (onboarding_profiles
                    (with_profile db {| doc_id := o1;
                                        doc_fields := profile_doc data1 n1 n2 |}))
                 o2 (profile_doc data2 n3 n4) = inl DuplicateKeyError).
  { unfold insert_one.
    destruct (existsb _ _); [reflexivity|].
    replace (violates_unique _ _) with true; [reflexivity|].
    symmetry. unfold violates_unique. apply existsb_exists.
    exists ["personalDetails"; "email"]. split; [exact Hidx|].
    cbn [with_profile onboarding_profiles documents]. apply existsb_app_last.
    cbn. rewrite He. apply String.eqb_refl. }
  unfold create_onboarding_profile. rewrite Hi. now split.
Qed.

(** ** The token issuer *)

(** X6. [create_access_token] signs the caller's claims unchanged except
    for [exp], which it always sets itself: an [exp] of the caller never
    survives.  A ttl other than zero is added to the clock; without a ttl
    the configured minutes are. *)
Theorem token_claims_overrides_exp_only (data : Doc)
    (expires_delta : option Z) (now : Z) :
  (forall k, k <> "exp" ->
     doc_get (token_claims cfg data expires_delta now) k = doc_get data k)
  /\ doc_get (token_claims cfg data expires_delta now) "exp"
     = doc_get (token_claims cfg [] expires_delta now) "exp"
  /\ (forall delta, expires_delta = Some delta -> delta <> 0 ->
        doc_get (token_claims cfg data expires_delta now) "exp"
        = Some (VDate (now + delta)))
  /\ (expires_delta = None ->
        doc_get (token_claims cfg data expires_delta now) "exp"
        = Some (VDate (now + timedelta_minutes
                               (JWT_ACCESS_TOKEN_EXPIRE_MINUTES cfg)))).
Proof.
  split; [|split; [|split]].
  - intros k Hk. unfold token_claims. now apply doc_get_doc_set_other.
  - unfold token_claims. now rewrite !doc_get_doc_set_same.
  - intros delta -> Hd. now apply token_claims_ttl.
  - intros ->. now apply token_claims_default.
Qed.

(** ** Login *)

Lemma find_one_by_email_field (c : Collection) (e : string) (d : Document) :
  find_one c (by_email e) = Some d ->
  doc_get (doc_fields d) "email" = Some (VStr e) /\ In d (documents c).
Proof.
  intros Hf. apply find_some in Hf. destruct Hf as [Hin Hm]. split; [|exact Hin].
  unfold by_email in Hm. cbn [matches] in Hm.
  destruct (doc_get (doc_fields d) "email") as [w|]; [|discriminate].
  now apply Value_eqb_VStr in Hm as ->.
Qed.

(** X7. A login succeeds only for a stored record found under the
    requested email whose stored digest [checkpw] accepts.  The answer then
    carries that record's id, name and email (the email being the one
    requested), the type [bearer], and a token whose payload is the id as
    subject and the clock plus the configured minutes as expiry, whatever
    that number is. *)
Theorem login_success_means_verified (db : DB) (user : UserLogin.t) (now : Z)
    (tok : Token.t) :
  login cfg db user now = Return tok ->
  exists user_doc hashed,
    find_one (users db) (by_email (UserLogin.email user)) = Some user_doc
    /\ doc_get (doc_fields user_doc) "password" = Some (VStr hashed)
    /\ checkpw (UserLogin.password user) hashed = Some true
    /\ Token.access_token tok
       = jwt_encode
           [ ("sub", VStr (ObjectId_str (doc_id user_doc)));
             ("exp", VDate (now + timedelta_minutes
                                    (JWT_ACCESS_TOKEN_EXPIRE_MINUTES cfg))) ]
           (JWT_SECRET_KEY cfg) (JWT_ALGORITHM cfg)
    /\ Token.token_type tok = "bearer"
    /\ Token.user_id tok = ObjectId_str (doc_id user_doc)
    /\ doc_get (doc_fields user_doc) "name" = Some (VStr (Token.name tok))
    /\ Token.email tok = UserLogin.email user.
Proof.
  unfold login, getitem.
  destruct (find_one _ _) as [user_doc|] eqn:Hf; [|discriminate].
  fold (by_email (UserLogin.email user)) in Hf.
  destruct (find_one_by_email_field _ _ _ Hf) as [He _].
  destruct (doc_get (doc_fields user_doc) "password")
    as [[ | h | | | ]|] eqn:Hp; cbn [bind encode_utf8]; try discriminate.
  destruct (checkpw _ h) as [[|]|] eqn:Hc; cbn [negb]; try discriminate.
  rewrite He.
  destruct (doc_get (doc_fields user_doc) "name")
    as [[ | n | | | ]|] eqn:Hn; cbn [bind as_str]; try discriminate.
  intros [= <-]. exists user_doc, h.
  cbn [Token.access_token Token.token_type Token.user_id Token.name Token.email].
  unfold create_access_token. rewrite token_claims_login.
  repeat split; assumption.
Qed.

Lemma new_user_ok (user : UserSignup.t) (hashed : string) (now : Z)
    (oid : ObjectId) :
  user_record_ok (new_user user hashed now oid).
Proof.
  exists (UserSignup.email user), (UserSignup.name user), hashed.
  repeat split.
Qed.

(** Whatever [signup] answers, the store afterwards is the store before,
    or the store before with the new record appended. *)
Lemma signup_store (db : DB) (user : UserSignup.t) (salt : string) (now : Z)
    (oid : ObjectId) :
  snd (signup db user salt now oid) = db
  \/ (exists hashed,
        hashpw (UserSignup.password user) salt = Some hashed
        /\ snd (signup db user salt now oid)
           = with_user db (new_user user hashed now oid)
        /\ fst (signup db user salt now oid) = Return (signup_response oid)
        /\ find_one (users db) (by_email (UserSignup.email user)) = None
        /\ find_one (users db) (ById oid) = None).
Proof.
  unfold signup, by_email.
  destruct (find_one (users db) (ByField _ _)) eqn:Hf; [now left|].
  destruct (hashpw _ salt) as [hashed|] eqn:Hh; [|now left].
  destruct (insert_one _ _ _) as [e | [i c]] eqn:Hi; [now left|].
  apply insert_one_inv in Hi. destruct Hi as (-> & -> & Hid).
  right. exists hashed. repeat split. exact Hid.
Qed.

(** X8. The records [signup] writes are the records [login] can read: a
    store whose user records all have a string [email], [name] and
    [password] stays so under [signup], and on such a store [login] never
    breaks on a missing or ill-typed field.  It answers with a token, with
    the 401, or, where [bcrypt.checkpw] refuses the password or the stored
    string, with the [ValueError] that call raises, a 500; and with a
    token or the 401 where [checkpw] takes the two. *)
Theorem login_on_signup_records (db : DB) :
  users_wellformed db ->
  (forall user salt now oid,
      users_wellformed (snd (signup db user salt now oid)))
  /\ (forall user now,
        (exists tok, login cfg db user now = Return tok)
        \/ login cfg db user now = RaiseHTTP invalid_email_or_password
        \/ (login cfg db user now = Raise ValueError
            /\ exists user_doc hashed,
                 find_one (users db) (by_email (UserLogin.email user))
                 = Some user_doc
                 /\ doc_get (doc_fields user_doc) "password"
                    = Some (VStr hashed)
                 /\ checkpw (UserLogin.password user) hashed = None))
  /\ (forall user now,
        (forall user_doc hashed,
            In user_doc (documents (users db)) ->
            doc_get (doc_fields user_doc) "password" = Some (VStr hashed) ->
            checkpw (UserLogin.password user) hashed <> None) ->
        (exists tok, login cfg db user now = Return tok)
        \/ login cfg db user now = RaiseHTTP invalid_email_or_password).
Proof.
  intros Hw.
  assert (Hl : forall user now,
             (exists tok, login cfg db user now = Return tok)
             \/ login cfg db user now = RaiseHTTP invalid_email_or_password
             \/ (login cfg db user now = Raise ValueError
                 /\ exists user_doc hashed,
                      find_one (users db) (by_email (UserLogin.email user))
                      = Some user_doc
                      /\ In user_doc (documents (users db))
                      /\ doc_get (doc_fields user_doc) "password"
                         = Some (VStr hashed)
                      /\ checkpw (UserLogin.password user) hashed = None)).
  { intros user now. unfold login, getitem, by_email.
    destruct (find_one _ _) as [user_doc|] eqn:Hf; [|now right; left].
    pose proof Hf as Hin. apply find_some in Hin. destruct Hin as [Hin _].
    unfold users_wellformed in Hw. rewrite Forall_forall in Hw.
    destruct (Hw user_doc Hin) as (e & n & h & He & Hn & Hp).
    rewrite Hp, Hn, He. cbn [bind encode_utf8 as_str].
    destruct (checkpw _ h) as [[|]|] eqn:Hc; cbn [negb].
    - left; eauto.
    - now right; left.
    - right; right. split; [reflexivity|]. now exists user_doc, h. }
  split; [|split].
  - intros user salt now oid.
    destruct (signup_store db user salt now oid) as [-> | (h & _ & -> & _)];
      [exact Hw|].
    unfold users_wellformed. cbn [with_user users documents].
    apply Forall_app. split; [exact Hw|].
    constructor; [apply new_user_ok | constructor].
  - intros user now.
    destruct (Hl user now) as [H | [H | (H & d & h & Hf & _ & Hp & Hc)]];
      [now left | now right; left |].
    right; right. split; [exact H|]. now exists d, h.
  - intros user now Hok.
    destruct (Hl user now) as [H | [H | (_ & d & h & _ & Hin & Hp & Hc)]];
      [now left | now right |].
    now destruct (Hok d h Hin Hp).
Qed.

(** ** Signup *)

(** X10. Once an email has signed up, every later signup with that email
    is rejected with the 400 and changes nothing, whatever its password,
    name, salt or id. *)
Theorem signup_twice_rejected (db db' : DB) (first second : UserSignup.t)
    (s1 s2 : string) (n1 n2 : Z) (o1 o2 : ObjectId) (r : Doc) :
  signup db first s1 n1 o1 = (Return r, db') ->
  UserSignup.email second = UserSignup.email first ->
  signup db' second s2 n2 o2 = (RaiseHTTP user_already_exists, db').
Proof.
  intros Hs He.
  destruct (signup_store db first s1 n1 o1)
    as [Hd | (h1 & _ & Hd & _ & Hf & _)];
    rewrite Hs in Hd; cbn [snd] in Hd; subst db'.
  - unfold signup in Hs.
    destruct (find_one (users db) _); [discriminate|].
    destruct (hashpw _ s1) as [h1|]; [|discriminate].
    destruct (insert_one _ _ _) as [e | [i c]] eqn:Hi; [discriminate|].
    apply insert_one_inv in Hi. destruct Hi as (-> & -> & _).
    injection Hs as _ Hdb.
    apply (f_equal (fun d => List.length (documents (users d)))) in Hdb.
    cbn [users documents] in Hdb. rewrite length_app in Hdb.
    cbn [List.length] in Hdb. lia.
  - apply (signup_existing _ _ _ _ _ (new_user first h1 n1 o1)).
    rewrite He. now apply find_new_user_by_email.
Qed.

Lemma NoDup_snoc {A : Type} (l : list A) (x : A) :
  NoDup l -> ~ In x l -> NoDup (l ++ [x]).
Proof.
  induction 1 as [|a l Ha Hl IH]; cbn [app]; intros Hx.
  - constructor; [intros [] | constructor].
  - constructor.
    + rewrite in_app_iff. intros [H | [H | []]]; [now apply Ha|].
      apply Hx. now left.
    + apply IH. intros H. apply Hx. now right.
Qed.

Lemma find_one_none_not_in (c : Collection) (q : Filter) (d : Document) :
  find_one c q = None -> In d (documents c) -> matches q d = false.
Proof.
  intros Hf Hin. unfold find_one in Hf.
  destruct (matches q d) eqn:Hm; [|reflexivity].
  now rewrite (find_none _ _ Hf d Hin) in Hm.
Qed.

(** X11. [signup] keeps the user records apart: if no two stored records
    share an [_id], or share an [email], the same is true after a signup,
    with or without an index in the store. *)
Theorem signup_keeps_users_distinct (db : DB) (user : UserSignup.t)
    (salt : string) (now : Z) (oid : ObjectId) :
  (NoDup (stored_ids db) ->
   NoDup (stored_ids (snd (signup db user salt now oid))))
  /\ (NoDup (stored_emails db) ->
      NoDup (stored_emails (snd (signup db user salt now oid)))).
Proof.
  destruct (signup_store db user salt now oid)
    as [-> | (hashed & _ & -> & _ & He & Hid)]; [now split|].
  unfold stored_ids, stored_emails. cbn [with_user users documents].
  rewrite !map_app. cbn [map new_user doc_id].
  split; intros Hn; (apply NoDup_snoc; [exact Hn|]);
    rewrite in_map_iff; intros (d & Hd & Hin).
  - pose proof (find_one_none_not_in _ _ d Hid Hin) as Hm.
    cbn [matches] in Hm. rewrite Hd, ObjectId_eqb_refl in Hm. discriminate.
  - pose proof (find_one_none_not_in _ _ d He Hin) as Hm.
    unfold by_email in Hm. cbn [matches] in Hm. rewrite Hd in Hm.
    cbn in Hm. rewrite String.eqb_refl in Hm. discriminate.
Qed.

Lemma find_one_with_user (db : DB) (d x : Document) (q : Filter) :
  find_one (users db) q = Some x ->
  find_one (users (with_user db d)) q = Some x.
Proof.
  unfold find_one. cbn [with_user users documents].
  rewrite find_app. now intros ->.
Qed.

(** X12. A signup does not disturb the users already stored: a login
    under an email that had a record is answered as before, and a token
    that resolved to a user still resolves to that user. *)
Theorem signup_preserves_existing_users (db : DB) (user : UserSignup.t)
    (salt : string) (t0 : Z) (oid : ObjectId) :
  (forall existing now,
      find_one (users db) (by_email (UserLogin.email existing)) <> None ->
      login cfg (snd (signup db user salt t0 oid)) existing now
      = login cfg db existing now)
  /\ (forall token now current,
        get_current_user cfg db token now = Return current ->
        get_current_user cfg (snd (signup db user salt t0 oid)) token now
        = Return current).
Proof.
  destruct (signup_store db user salt t0 oid) as [-> | (hashed & _ & -> & _)];
    [now split|].
  split.
  - intros existing now Hf. unfold login.
    destruct (find_one (users db) (by_email (UserLogin.email existing)))
      as [x|] eqn:Hx; [|congruence].
    unfold by_email in *.
    now rewrite (find_one_with_user _ _ _ _ Hx), Hx.
  - intros token now current. unfold get_current_user.
    destruct (jwt_decode token _ _ now) as [e | payload]; [discriminate|].
    destruct (doc_get payload "sub") as [[ | user_id | | | ] | ];
      try discriminate.
    destruct (ObjectId_of_str user_id) as [o|]; [|discriminate].
    destruct (find_one (users db) (ById o)) as [x|] eqn:Hx; [|discriminate].
    intros [= <-]. now rewrite (find_one_with_user _ _ _ _ Hx).
Qed.

(** ** Two signups at once, under any schedule *)

Section Race.
Variables (db : DB) (u1 u2 : UserSignup.t) (s1 s2 h1 h2 : string)
  (n1 n2 : Z) (o1 o2 : ObjectId).
Hypothesis same_email : UserSignup.email u1 = UserSignup.email u2.
Hypothesis hashed1 : hashpw (UserSignup.password u1) s1 = Some h1.
Hypothesis hashed2 : hashpw (UserSignup.password u2) s2 = Some h2.
Hypothesis email_free :
  find_one (users db) (by_email (UserSignup.email u1)) = None.
Hypothesis id1_new : find_one (users db) (ById o1) = None.
Hypothesis id2_new : find_one (users db) (ById o2) = None.
Hypothesis indexed : unique_indexes (users db) = [["email"]].

Let states := race_states db u1 s1 h1 n1 o1 u2 s2 h2 n2 o2.

Ltac race_member :=
  unfold states, race_states; cbn [In];
  repeat first [left; reflexivity | right].

Lemma race_step (a b : SignupTask) (d : DB) :
  In (a, b, d) states ->
  In (let (a', d') := signup_step d a in (a', b, d')) states
  /\ In (let (b', d') := signup_step d b in (a, b', d')) states.
Proof.
  assert (Hf2 : find_one (users db) (by_email (UserSignup.email u2)) = None)
    by (now rewrite <- same_email).
  assert (Hincl : incl (unique_indexes (users db)) [["email"]])
    by (rewrite indexed; apply incl_refl).
  assert (Hmem : In ["email"] (unique_indexes (users db)))
    by (rewrite indexed; now left).
  pose proof (find_new_user_by_email db u1 h1 n1 o1 email_free) as Hp1.
  pose proof (find_new_user_by_email db u2 h2 n2 o2 Hf2) as Hp2.
  rewrite same_email in Hp1. rewrite <- same_email in Hp2.
  pose proof (insert_one_same_email db u1 u2 h1 h2 n1 n2 o1 o2
                same_email Hmem) as Hr2.
  pose proof (insert_one_same_email db u2 u1 h2 h1 n2 n1 o2 o1
                (eq_sym same_email) Hmem) as Hr1.
  pose proof (step_find_absent _ _ s1 h1 n1 o1 email_free hashed1) as F1.
  pose proof (step_find_absent _ _ s2 h2 n2 o2 Hf2 hashed2) as F2.
  pose proof (step_insert_fresh _ _ h1 n1 _ email_free id1_new Hincl) as I1.
  pose proof (step_insert_fresh _ _ h2 n2 _ Hf2 id2_new Hincl) as I2.
  pose proof (step_find_present _ _ s2 n2 o2 _ Hp1) as P2.
  pose proof (step_find_present _ _ s1 n1 o1 _ Hp2) as P1.
  pose proof (step_insert_refused _ _ _ _ Hr2) as R2.
  pose proof (step_insert_refused _ _ _ _ Hr1) as R1.
  unfold states, race_states. cbn [In].
  intros H.
  repeat (destruct H as [H | H]; [injection H as <- <- <-|]);
    try contradiction;
    rewrite ?F1, ?F2, ?I1, ?I2, ?P1, ?P2, ?R1, ?R2;
    cbn [signup_step]; split; race_member.
Qed.

Lemma race_run (schedule : list bool) :
  forall a b d,
    In (a, b, d) states -> In (run_signups schedule d a b) states.
Proof.
  induction schedule as [|[] s IH]; intros a b d H; cbn [run_signups].
  - exact H.
  - destruct (race_step a b d H) as [Ha _].
    destruct (signup_step d a) as [a' d']. now apply IH.
  - destruct (race_step a b d H) as [_ Hb].
    destruct (signup_step d b) as [b' d']. now apply IH.
Qed.

(** X13. Two signups with one email and passwords that bcrypt takes, on
    a store with the unique index, under any schedule whatever: at every
    moment the store holds at most one of the two records, and when both
    requests have finished exactly one of them has succeeded; the other
    was answered with the 400 or with the unhandled [DuplicateKeyError]. *)
Theorem concurrent_signups_any_schedule (schedule : list bool) :
  let '(a, b, db') :=
    run_signups schedule db (AwaitFind u1 s1 n1 o1) (AwaitFind u2 s2 n2 o2) in
  (db' = db
   \/ db' = with_user db (new_user u1 h1 n1 o1)
   \/ db' = with_user db (new_user u2 h2 n2 o2))
  /\ forall ra rb,
       outcome a = Some ra -> outcome b = Some rb ->
       (ra = Return (signup_response o1)
        /\ (rb = RaiseHTTP user_already_exists \/ rb = Raise DuplicateKeyError)
        /\ db' = with_user db (new_user u1 h1 n1 o1))
       \/ (rb = Return (signup_response o2)
           /\ (ra = RaiseHTTP user_already_exists \/ ra = Raise DuplicateKeyError)
           /\ db' = with_user db (new_user u2 h2 n2 o2)).
Proof.
  assert (H0 : In (AwaitFind u1 s1 n1 o1, AwaitFind u2 s2 n2 o2, db) states)
    by race_member.
  pose proof (race_run schedule _ _ _ H0) as H.
  destruct (run_signups schedule db _ _) as [[a b] db'].
  unfold states, race_states in H. cbn [In] in H.
  repeat (destruct H as [H | H]; [injection H as <- <- <-|]);
    try contradiction;
    (split; [tauto|]); intros ra rb Ha Hb; cbn [outcome] in Ha, Hb;
    try discriminate; injection Ha as <-; injection Hb as <-; tauto.
Qed.

End Race.

(** ** The set-up script *)

Lemma create_index_again (c : Collection) (p : list string) :
  In p (unique_indexes c) ->
  distinct_keys p (documents c) = true ->
  create_index c p true = inr c.
Proof.
  intros Hin Hd. unfold create_index. rewrite Hd.
  replace (existsb _ (unique_indexes c)) with true; [now destruct c|].
  symmetry. apply existsb_exists. exists p. split; [exact Hin|].
  now destruct (list_eq_dec string_dec p p).
Qed.

Lemma create_index_distinct (c c' : Collection) (p : list string) :
  create_index c p true = inr c' -> distinct_keys p (documents c') = true.
Proof.
  unfold create_index.
  destruct (distinct_keys p (documents c)) eqn:Hd; [|discriminate].
  now intros [= <-].
Qed.

Lemma same_key_string_sym (p : list string) (a b : Doc) (l : string) :
  path_get b p = Some (VStr l) -> same_key p a b = same_key p b a.
Proof.
  unfold same_key. intros ->.
  destruct (path_get a p) as [[ | s | | | ]|]; cbn; try reflexivity.
  apply String.eqb_sym.
Qed.

Lemma distinct_keys_snoc (p : list string) (ds : list Document) (n : Document) :
  distinct_keys p ds = true ->
  existsb (fun x => same_key p (doc_fields n) (doc_fields x)) ds = false ->
  distinct_keys p (ds ++ [n]) = true.
Proof.
  induction ds as [|d r IH]; cbn [app distinct_keys existsb]; [reflexivity|].
  intros Hd Hn.
  apply andb_true_iff in Hd. destruct Hd as [Hd1 Hd2].
  apply orb_false_iff in Hn. destruct Hn as [Hn1 Hn2].
  rewrite existsb_app. cbn [existsb]. rewrite Hn1, !orb_false_r.
  now rewrite Hd1, IH.
Qed.

Lemma no_violation_on (c : Collection) (d : Doc) (p : list string) :
  violates_unique c d = false -> In p (unique_indexes c) ->
  existsb (fun x => same_key p (doc_fields x) d) (documents c) = false.
Proof.
  unfold violates_unique. intros Hv Hin.
  destruct (existsb (fun x => same_key p (doc_fields x) d) (documents c)) eqn:E;
    [|reflexivity].
  rewrite <- Hv. symmetry. apply existsb_exists. now exists p.
Qed.

Lemma existsb_ext_in {A : Type} (f g : A -> bool) (l : list A) :
  (forall x, In x l -> f x = g x) -> existsb f l = existsb g l.
Proof.
  induction l as [|a l IH]; cbn [existsb]; [reflexivity|].
  intros H. rewrite (H a (or_introl eq_refl)), IH; [reflexivity|].
  intros x Hx. apply H. now right.
Qed.

(** One round of the seeding loop on a sample with a string language. *)
Lemma seed_one (c c1 : Collection) (d : Doc) (oid : ObjectId) (l : string) :
  doc_get d "language" = Some (VStr l) ->
  match find_one c (by_language l) with
  | Some _ => Return c
  | None => r <- lift (insert_one c oid d) ;; Return (snd r)
  end = Return c1 ->
  unique_indexes c1 = unique_indexes c
  /\ (In ["language"] (unique_indexes c) ->
      distinct_keys ["language"] (documents c) = true ->
      distinct_keys ["language"] (documents c1) = true)
  /\ (forall q x, find_one c q = Some x -> find_one c1 q = Some x)
  /\ find_one c1 (by_language l) <> None
  /\ exists added, documents c1 = (documents c ++ added)%list
                   /\ (List.length added <= 1)%nat.
Proof.
  intros Hl.
  destruct (find_one c (by_language l)) as [x|] eqn:Hf.
  - intros [= <-]. repeat split; auto; [congruence|].
    exists []. rewrite app_nil_r. split; [reflexivity | cbn [List.length]; lia].
  - unfold lift.
    destruct (insert_one c oid d) as [e | [i c']] eqn:Hi; cbn [bind snd];
      [discriminate|].
    intros [= <-].
    pose proof Hi as Hok. unfold insert_one in Hok.
    destruct (existsb _ (documents c)); [discriminate|].
    destruct (violates_unique c (bson_doc d)) eqn:Hv; [discriminate|].
    clear Hok. apply insert_one_inv in Hi. destruct Hi as (-> & -> & _).
    cbn [unique_indexes documents].
    assert (Hs : doc_get (bson_doc d) "language" = Some (VStr l)).
    { clear -Hl. induction d as [|[k v] r IH]; [discriminate|].
      cbn [bson_doc map fst snd doc_get] in *.
      destruct (String.eqb k "language"); [|exact (IH Hl)].
      injection Hl as ->. reflexivity. }
    repeat split.
    + intros Hin Hd. apply distinct_keys_snoc; [exact Hd|].
      cbn [doc_fields].
      rewrite (existsb_ext_in _
                 (fun x => same_key ["language"] (doc_fields x) (bson_doc d))).
      * exact (no_violation_on c (bson_doc d) ["language"] Hv Hin).
      * intros x _. symmetry. apply (same_key_string_sym _ _ _ l). exact Hs.
    + intros q x Hq. unfold find_one in *. cbn [documents].
      rewrite find_app. now rewrite Hq.
    + unfold find_one in *. cbn [documents]. rewrite find_app, Hf.
      cbn [find]. unfold by_language. cbn [matches doc_fields].
      rewrite Hs. cbn [Value_eqb]. rewrite String.eqb_refl. discriminate.
    + eexists. split; [reflexivity|]. cbn. lia.
Qed.

Lemma seed_inv (samples : list (Doc * ObjectId)) :
  Forall has_language samples ->
  forall c c',
    seed c samples = Return c' ->
    unique_indexes c' = unique_indexes c
    /\ (In ["language"] (unique_indexes c) ->
        distinct_keys ["language"] (documents c) = true ->
        distinct_keys ["language"] (documents c') = true)
    /\ (forall q x, find_one c q = Some x -> find_one c' q = Some x)
    /\ Forall (fun sample =>
                 forall l, doc_get (fst sample) "language" = Some (VStr l) ->
                           find_one c' (by_language l) <> None) samples
    /\ exists added, documents c' = (documents c ++ added)%list
                     /\ (List.length added <= List.length samples)%nat.
Proof.
  induction 1 as [|[d oid] rest [l Hl] Hrest IH]; intros c c'.
  - cbn [seed]. intros [= <-]. repeat split; auto.
    exists []. rewrite app_nil_r. split; [reflexivity | cbn [List.length]; lia].
  - cbn [seed fst] in *. unfold getitem. rewrite Hl. cbn [bind].
    fold (by_language l).
    destruct (find_one c (by_language l)) as [x|] eqn:Hf.
    + intros Hs. destruct (IH c c' Hs) as (Hi & Hd & Hq & Hall & added & Ha & Hn).
      repeat split; auto.
      * constructor; [|exact Hall].
        cbn [fst]. intros l' Hl'. rewrite Hl in Hl'. injection Hl' as <-.
        now rewrite (Hq _ _ Hf).
      * exists added. split; [exact Ha | cbn [List.length]; lia].
    + unfold lift.
      destruct (insert_one c oid d) as [e | [i c1]] eqn:Hi1; cbn [bind snd];
        [discriminate|].
      intros Hs.
      destruct (seed_one c c1 d oid l Hl) as (Hi & Hd & Hq & Hfound & a1 & Ha1 & Hn1).
      { rewrite Hf. unfold lift. now rewrite Hi1. }
      destruct (IH c1 c' Hs) as (Hi' & Hd' & Hq' & Hall & a2 & Ha2 & Hn2).
      repeat split.
      * congruence.
      * intros Hin Hdist. apply Hd'; [now rewrite Hi | now apply Hd].
      * intros q x Hx. now apply Hq', Hq.
      * constructor; [|exact Hall].
        cbn [fst]. intros l' Hl'. rewrite Hl in Hl'. injection Hl' as <-.
        destruct (find_one c1 (by_language l)) as [y|] eqn:Hy; [|congruence].
        now rewrite (Hq' _ _ Hy).
      * exists (a1 ++ a2)%list. rewrite Ha2, Ha1, app_assoc. split; [reflexivity|].
        rewrite length_app. cbn [List.length]. lia.
Qed.

Lemma seed_noop (samples : list (Doc * ObjectId)) (c : Collection) :
  Forall (fun sample =>
            exists l, doc_get (fst sample) "language" = Some (VStr l)
                      /\ find_one c (by_language l) <> None) samples ->
  seed c samples = Return c.
Proof.
  induction 1 as [|[d oid] rest (l & Hl & Hf) Hrest IH]; [reflexivity|].
  cbn [seed fst] in *. unfold getitem. rewrite Hl. cbn [bind].
  fold (by_language l).
  destruct (find_one c (by_language l)); [exact IH | congruence].
Qed.

Lemma samples_have_language (t1 t2 t3 t4 : Z) (oid1 oid2 : ObjectId) :
  Forall has_language (combine (sample_audio_urls t1 t2 t3 t4) [oid1; oid2]).
Proof.
  repeat constructor; [exists "english" | exists "arabic"]; reflexivity.
Qed.

End Coverage.

(** Both documents of the set-up script are in the store after it ran. *)
Lemma setup_database_inv {datetime : Datetime} (db db' : DB)
    (t1 t2 t3 t4 : Z) (oid1 oid2 : ObjectId) :
  setup_database db t1 t2 t3 t4 oid1 oid2 = Return db' ->
  exists audio profiles usrs,
    create_index (audio_urls db) ["language"] true = inr audio
    /\ create_index (onboarding_profiles db) ["personalDetails"; "email"] true
       = inr profiles
    /\ create_index (users db) ["email"] true = inr usrs
    /\ seed audio (combine (sample_audio_urls t1 t2 t3 t4) [oid1; oid2])
       = Return (audio_urls db')
    /\ onboarding_profiles db' = profiles
    /\ users db' = usrs.
Proof.
  unfold setup_database, lift.
  destruct (create_index (audio_urls db) _ _) as [e | audio]; cbn [bind];
    [discriminate|].
  destruct (create_index (onboarding_profiles db) _ _) as [e | profiles];
    cbn [bind]; [discriminate|].
  change (create_index profiles ["createdAt"] false) with (@inr Exc _ profiles).
  cbn [bind].
  destruct (create_index (users db) ["email"] true) as [e | usrs];
    cbn [bind]; [discriminate|].
  change (create_index usrs ["createdAt"] false) with (@inr Exc _ usrs).
  cbn [bind].
  destruct (seed _ _) as [a | e | e] eqn:Hs; cbn [bind]; try discriminate.
  intros [= <-]. exists audio, profiles, usrs. now repeat split.
Qed.

Section Coverage.
Context {bcrypt : Bcrypt} {jose : Jose} {datetime : Datetime} {pystr : PyStr}.
Variable cfg : Config.

(** X15. When [setup_database] succeeds, the three collections have their
    unique indexes ([users] on [email], [onboarding_profiles] on
    [personalDetails.email], [audio_urls] on [language]), the user and
    profile records are the ones that were there, at most two audio
    documents were added after the old ones, and both sample languages
    are found. *)
Theorem setup_database_establishes (db db' : DB) (t1 t2 t3 t4 : Z)
    (oid1 oid2 : ObjectId) :
  setup_database db t1 t2 t3 t4 oid1 oid2 = Return db' ->
  In ["email"] (unique_indexes (users db'))
  /\ In ["personalDetails"; "email"] (unique_indexes (onboarding_profiles db'))
  /\ In ["language"] (unique_indexes (audio_urls db'))
  /\ documents (users db') = documents (users db)
  /\ documents (onboarding_profiles db') = documents (onboarding_profiles db)
  /\ (exists added,
        documents (audio_urls db') = (documents (audio_urls db) ++ added)%list
        /\ (List.length added <= 2)%nat)
  /\ find_one (audio_urls db') (by_language "english") <> None
  /\ find_one (audio_urls db') (by_language "arabic") <> None.
Proof.
  intros Hs. apply setup_database_inv in Hs.
  destruct Hs as (audio & profiles & usrs & Ha & Hp & Hu & Hseed & -> & ->).
  apply create_index_unique_inv in Hp, Hu.
  destruct (create_index_unique_inv _ _ _ Ha) as [Hal Had].
  destruct (seed_inv _ (samples_have_language t1 t2 t3 t4 oid1 oid2) _ _ Hseed)
    as (Hi & _ & _ & Hall & added & Hadd & Hn).
  cbn [combine sample_audio_urls] in Hall.
  inversion Hall as [|? ? He Hall']; subst.
  inversion Hall' as [|? ? Hr _]; subst.
  repeat split; try tauto.
  - now rewrite Hi.
  - exists added. now rewrite Hadd, Had.
  - now apply He.
  - now apply Hr.
Qed.

(** X16. The set-up script can be run again: on the store a successful run
    left, a further run, at any time and with any new ids, succeeds and
    leaves the store exactly as it is. *)
Theorem setup_database_idempotent (db db' : DB) (t1 t2 t3 t4 : Z)
    (oid1 oid2 : ObjectId) :
  setup_database db t1 t2 t3 t4 oid1 oid2 = Return db' ->
  forall t1' t2' t3' t4' oid1' oid2',
    setup_database db' t1' t2' t3' t4' oid1' oid2' = Return db'.
Proof.
  intros Hs t1' t2' t3' t4' oid1' oid2'. apply setup_database_inv in Hs.
  destruct Hs as (audio & profiles & usrs & Ha & Hp & Hu & Hseed & Hp' & Hu').
  pose proof (create_index_distinct _ _ _ Ha) as Hda.
  pose proof (create_index_distinct _ _ _ Hp) as Hdp.
  pose proof (create_index_distinct _ _ _ Hu) as Hdu.
  apply create_index_unique_inv in Ha, Hp, Hu.
  destruct Ha as [Hia _]. destruct Hp as [Hip _]. destruct Hu as [Hiu _].
  destruct (seed_inv _ (samples_have_language t1 t2 t3 t4 oid1 oid2) _ _ Hseed)
    as (Hi & Hd & _ & Hall & _).
  cbn [combine sample_audio_urls] in Hall.
  inversion Hall as [|? ? He Hall']; subst.
  inversion Hall' as [|? ? Hr _]; subst.
  unfold setup_database.
  rewrite (create_index_again (audio_urls db') ["language"])
    by (rewrite ?Hi; auto).
  rewrite (create_index_again (onboarding_profiles db')) by assumption.
  rewrite (create_index_again (users db')) by assumption.
  cbn [lift bind create_index].
  rewrite seed_noop.
  - cbn [bind]. now destruct db'.
  - cbn [combine sample_audio_urls].
    repeat constructor;
      [exists "english" | exists "arabic"]; (split; [reflexivity|]).
    + now apply He.
    + now apply Hr.
Qed.

Lemma violates_unique_empty (c : Collection) (d : Doc) :
  documents c = [] -> violates_unique c d = false.
Proof.
  intros Hd. unfold violates_unique. rewrite Hd.
  induction (unique_indexes c) as [|p ps IH]; [reflexivity|].
  cbn [existsb]. exact IH.
Qed.

(** On a store without audio documents, a successful run stores exactly the
    two samples. *)
Lemma seeded_documents (db db' : DB) (t1 t2 t3 t4 : Z) (oid1 oid2 : ObjectId) :
  setup_database db t1 t2 t3 t4 oid1 oid2 = Return db' ->
  documents (audio_urls db) = [] ->
  documents (audio_urls db')
  = map (fun s => {| doc_id := snd s; doc_fields := fst s |})
      (combine (sample_audio_urls t1 t2 t3 t4) [oid1; oid2]).
Proof.
  intros Hs Hempty. apply setup_database_inv in Hs.
  destruct Hs as (audio & _ & _ & Ha & _ & _ & Hseed & _).
  apply create_index_unique_inv in Ha. destruct Ha as [_ Hd].
  rewrite Hempty in Hd.
  cbn [combine sample_audio_urls seed fst] in Hseed.
  unfold getitem in Hseed. cbn [doc_get String.eqb Ascii.eqb Bool.eqb bind] in Hseed.
  unfold find_one at 1 in Hseed. rewrite Hd in Hseed. cbn [find] in Hseed.
  unfold insert_one at 1 in Hseed. rewrite Hd in Hseed.
  cbn [existsb] in Hseed.
  rewrite (violates_unique_empty audio _ Hd) in Hseed.
  cbn [lift bind snd app] in Hseed.
  unfold find_one at 1 in Hseed.
  cbn [documents find matches doc_fields bson_doc map fst snd bson_value doc_get
       String.eqb Ascii.eqb Bool.eqb Value_eqb] in Hseed.
  unfold insert_one in Hseed. cbn [documents existsb doc_id] in Hseed.
  destruct (ObjectId_eqb oid1 oid2 || false); [discriminate|].
  destruct (violates_unique _ _); [discriminate|].
  cbn [lift bind snd seed] in Hseed. injection Hseed as <-.
  reflexivity.
Qed.

(** X17. After [setup_database] has run on a store without audio
    documents, [GET /api/audio] answers every language that [str.lower]
    takes to [english] or [arabic] with the sample URL and the timestamps
    of the run, and every other language with a 404. *)
Theorem seeded_audio_lookup (db db' : DB) (t1 t2 t3 t4 : Z)
    (oid1 oid2 : ObjectId) (lang : string) :
  setup_database db t1 t2 t3 t4 oid1 oid2 = Return db' ->
  documents (audio_urls db) = [] ->
  (str_lower lang = "english" ->
   get_audio_url db' lang
   = Return {| AudioResponse.language := "english";
               AudioResponse.audioUrl :=
                 "https://example.com/audio/english_sample.mp3";
               AudioResponse.createdAt := isoformat t1;
               AudioResponse.updatedAt := isoformat t2 |})
  /\ (str_lower lang = "arabic" ->
      get_audio_url db' lang
      = Return {| AudioResponse.language := "arabic";
                  AudioResponse.audioUrl :=
                    "https://example.com/audio/arabic_sample.mp3";
                  AudioResponse.createdAt := isoformat t3;
                  AudioResponse.updatedAt := isoformat t4 |})
  /\ (str_lower lang <> "english" -> str_lower lang <> "arabic" ->
      http_status (get_audio_url db' lang) = 404).
Proof.
  intros Hs Hempty. pose proof (seeded_documents _ _ _ _ _ _ _ _ Hs Hempty) as Hd.
  cbn [combine sample_audio_urls map fst snd] in Hd.
  unfold get_audio_url, find_one. rewrite Hd. clear Hd.
  repeat split.
  - intros ->. reflexivity.
  - intros ->. reflexivity.
  - intros He Ha. cbn [find].
    match goal with
    | |- context [matches ?q {| doc_id := oid1; doc_fields := ?d |}] =>
        change (matches q {| doc_id := oid1; doc_fields := d |})
          with (String.eqb "english" (str_lower lang))
    end.
    destruct (String.eqb_spec "english" (str_lower lang)) as [E|_]; [congruence|].
    match goal with
    | |- context [matches ?q {| doc_id := oid2; doc_fields := ?d |}] =>
        change (matches q {| doc_id := oid2; doc_fields := d |})
          with (String.eqb "arabic" (str_lower lang))
    end.
    destruct (String.eqb_spec "arabic" (str_lower lang)) as [E|_]; [congruence|].
    reflexivity.
Qed.

(** ** Login and the authenticator together *)

Lemma find_by_id_unique (docs : list Document) (d : Document) :
  NoDup (map doc_id docs) -> In d docs ->
  find (matches (ById (doc_id d))) docs = Some d.
Proof.
  induction docs as [|a r IH]; cbn [map In find matches]; [contradiction|].
  intros Hn Hin. inversion Hn as [|? ? Ha Hr]; subst.
  destruct Hin as [-> | Hin].
  - now rewrite ObjectId_eqb_refl.
  - destruct (ObjectId_eqb (doc_id a) (doc_id d)) eqn:E; [|now apply IH].
    apply ObjectId_eqb_eq in E. exfalso. apply Ha. rewrite E.
    now apply in_map.
Qed.

Section Authenticated.
Context {jose_laws : JoseLaws jose}.

(** X19. On a store whose user records have distinct, well-formed ids,
    every token that [login] issues authenticates, until its expiry, as
    the record that logged in: [get_current_user] returns the record found
    under the login's email, whose id is the [user_id] of the login
    response. *)
Theorem login_token_authenticates (db : DB) (user : UserLogin.t)
    (t1 t2 : Z) (tok : Token.t) :
  NoDup (stored_ids db) ->
  Forall (fun d => ObjectId_valid (doc_id d)) (documents (users db)) ->
  login cfg db user t1 = Return tok ->
  timegm t2 <=
    timegm (t1 + timedelta_minutes (JWT_ACCESS_TOKEN_EXPIRE_MINUTES cfg)) ->
  exists current,
    get_current_user cfg db (Token.access_token tok) t2 = Return current
    /\ find_one (users db) (by_email (UserLogin.email user)) = Some current
    /\ ObjectId_str (doc_id current) = Token.user_id tok.
Proof.
  intros Hn Hv Hl Hexp.
  apply login_success_inv in Hl.
  destruct Hl as (user_doc & name & email & Hf & _ & _ & ->).
  exists user_doc. cbn [Token.access_token Token.user_id].
  split; [|now split].
  pose proof Hf as Hin. apply find_some in Hin. destruct Hin as [Hin _].
  rewrite Forall_forall in Hv. specialize (Hv user_doc Hin).
  unfold create_access_token. rewrite token_claims_login.
  destruct (jwt_decode_encode
              [ ("sub", VStr (ObjectId_str (doc_id user_doc)));
                ("exp", VDate (t1 + timedelta_minutes
                                      (JWT_ACCESS_TOKEN_EXPIRE_MINUTES cfg))) ]
              (JWT_SECRET_KEY cfg) (JWT_ALGORITHM cfg) t2
              (ObjectId_str (doc_id user_doc))
              (t1 + timedelta_minutes (JWT_ACCESS_TOKEN_EXPIRE_MINUTES cfg))
              eq_refl eq_refl Hexp) as (payload & Hdec & Hsub).
  unfold get_current_user. rewrite Hdec, Hsub.
  rewrite (ObjectId_of_str_str _ Hv).
  unfold find_one, stored_ids in *.
  now rewrite (find_by_id_unique _ _ Hn Hin).
Qed.

End Authenticated.

End Coverage.

(** ** The further properties at concrete requests *)

Lemma get_current_user_returns_subject_witness :
  exists payload user_id,
    jwt_decode (Jose := demo_jose) demo_token (JWT_SECRET_KEY demo_config)
      [JWT_ALGORITHM demo_config] 0 = inr payload
    /\ doc_get payload "sub" = Some (VStr user_id)
    /\ ObjectId_of_str user_id
       = Some (doc_id (new_user demo_user "$demo$hunter2" 0 demo_oid))
    /\ ObjectId_str (doc_id (new_user demo_user "$demo$hunter2" 0 demo_oid))
       = lower user_id
    /\ In (new_user demo_user "$demo$hunter2" 0 demo_oid)
          (documents (users demo_db))
    /\ find_one (users demo_db)
         (ById (doc_id (new_user demo_user "$demo$hunter2" 0 demo_oid)))
       = Some (new_user demo_user "$demo$hunter2" 0 demo_oid).
Proof.
  apply (get_current_user_returns_subject (jose := demo_jose) demo_config
           demo_db demo_token 0).
  reflexivity.
Defined.

Lemma onboarding_profile_round_trip_witness :
  get_onboarding_profile demo_profile_db
    (OnboardingResponse.userId demo_onboarding_response)
  = Return (("_id", VStr (OnboardingResponse.userId demo_onboarding_response))
              :: profile_doc (datetime := demo_datetime) demo_onboarding 0 0)
  /\ forall data2 m1 m2 oid2 response2 db'',
       create_onboarding_profile (datetime := demo_datetime) demo_profile_db
         data2 m1 m2 oid2 = (Return response2, db'') ->
       get_onboarding_profile db''
         (OnboardingResponse.userId demo_onboarding_response)
       = get_onboarding_profile demo_profile_db
           (OnboardingResponse.userId demo_onboarding_response).
Proof.
  apply (onboarding_profile_round_trip (datetime := demo_datetime)
           demo_seeded_db demo_profile_db demo_onboarding 0 0 demo_oid
           demo_onboarding_response).
  - reflexivity.
  - reflexivity.
Defined.

Lemma create_onboarding_profile_duplicate_email_witness :
  create_onboarding_profile (datetime := demo_datetime) demo_profile_db
    demo_onboarding 5 6 demo_oid'
  = (Raise DuplicateKeyError, demo_profile_db)
  /\ http_status
       (fst (create_onboarding_profile (datetime := demo_datetime)
               demo_profile_db demo_onboarding 5 6 demo_oid')) = 500.
Proof.
  apply (create_onboarding_profile_duplicate_email (datetime := demo_datetime)
           demo_seeded_db demo_profile_db demo_onboarding demo_onboarding
           0 0 5 6 demo_oid demo_oid' demo_onboarding_response).
  - vm_compute. now left.
  - reflexivity.
  - reflexivity.
Defined.

Lemma login_success_means_verified_witness :
  exists user_doc hashed,
    find_one (users demo_db) (by_email "Bob@example.com") = Some user_doc
    /\ doc_get (doc_fields user_doc) "password" = Some (VStr hashed)
    /\ checkpw (Bcrypt := demo_bcrypt) "hunter2" hashed = Some true
    /\ Token.access_token demo_tok
       = jwt_encode (Jose := demo_jose)
           [ ("sub", VStr (ObjectId_str (doc_id user_doc)));
             ("exp", VDate (0 + timedelta_minutes
                                  (JWT_ACCESS_TOKEN_EXPIRE_MINUTES demo_config))) ]
           (JWT_SECRET_KEY demo_config) (JWT_ALGORITHM demo_config)
    /\ Token.token_type demo_tok = "bearer"
    /\ Token.user_id demo_tok = ObjectId_str (doc_id user_doc)
    /\ doc_get (doc_fields user_doc) "name" = Some (VStr (Token.name demo_tok))
    /\ Token.email demo_tok = "Bob@example.com".
Proof.
  apply (login_success_means_verified (bcrypt := demo_bcrypt)
           (jose := demo_jose) demo_config demo_db
           (demo_login "Bob@example.com" "hunter2") 0 demo_tok).
  reflexivity.
Defined.

Lemma login_on_signup_records_witness :
  users_wellformed
    (snd (signup (bcrypt := demo_bcrypt) demo_db demo_long_user "salt" 3
            demo_oid'))
  /\ users_wellformed
       (snd (signup (bcrypt := demo_bcrypt) demo_plain_db
               {| UserSignup.email := "carol@example.com";
                  UserSignup.password := "swordfish";
                  UserSignup.name := "Carol" |} "salt" 3 demo_oid'))
  /\ ((exists tok,
          login (bcrypt := demo_bcrypt) (jose := demo_jose) demo_config
            demo_plain_db (demo_login "Bob@example.com" "hunter2") 0
          = Return tok)
      \/ login (bcrypt := demo_bcrypt) (jose := demo_jose) demo_config
           demo_plain_db (demo_login "Bob@example.com" "hunter2") 0
         = RaiseHTTP invalid_email_or_password
      \/ (login (bcrypt := demo_bcrypt) (jose := demo_jose) demo_config
            demo_plain_db (demo_login "Bob@example.com" "hunter2") 0
          = Raise ValueError
          /\ exists user_doc hashed,
               find_one (users demo_plain_db) (by_email "Bob@example.com")
               = Some user_doc
               /\ doc_get (doc_fields user_doc) "password"
                  = Some (VStr hashed)
               /\ checkpw (Bcrypt := demo_bcrypt) "hunter2" hashed = None))
  /\ ((exists tok,
          login (bcrypt := demo_bcrypt) (jose := demo_jose) demo_config
            demo_db (demo_login "Bob@example.com" "letmein") 0 = Return tok)
      \/ login (bcrypt := demo_bcrypt) (jose := demo_jose) demo_config
           demo_db (demo_login "Bob@example.com" "letmein") 0
         = RaiseHTTP invalid_email_or_password).
Proof.
  assert (Hd : users_wellformed demo_db).
  { constructor; [|constructor].
    exists "Bob@example.com", "Bob", "$demo$hunter2". repeat split. }
  assert (Hp : users_wellformed demo_plain_db).
  { constructor; [|constructor].
    exists "Bob@example.com", "Bob", "hunter2". repeat split. }
  split; [|split; [|split]].
  - apply (proj1 (login_on_signup_records (bcrypt := demo_bcrypt)
                    (jose := demo_jose) demo_config demo_db Hd)).
  - apply (proj1 (login_on_signup_records (bcrypt := demo_bcrypt)
                    (jose := demo_jose) demo_config demo_plain_db Hp)).
  - apply (proj1 (proj2 (login_on_signup_records (bcrypt := demo_bcrypt)
                           (jose := demo_jose) demo_config demo_plain_db Hp))
             (demo_login "Bob@example.com" "hunter2") 0).
  - apply (proj2 (proj2 (login_on_signup_records (bcrypt := demo_bcrypt)
                           (jose := demo_jose) demo_config demo_db Hd))
             (demo_login "Bob@example.com" "letmein") 0).
    intros user_doc hashed [<- | []]. cbn. intros [= <-]. discriminate.
Defined.

(** On a record whose [password] is not a digest, the login of the right
    user ends with the [ValueError] of [checkpw]. *)
Example login_on_plain_password :
  login (bcrypt := demo_bcrypt) (jose := demo_jose) demo_config demo_plain_db
    (demo_login "Bob@example.com" "hunter2") 0
  = Raise ValueError.
Proof. reflexivity. Qed.

Lemma signup_twice_rejected_witness :
  signup (bcrypt := demo_bcrypt) demo_db demo_user "pepper" 9 demo_oid'
  = (RaiseHTTP user_already_exists, demo_db).
Proof.
  apply (signup_twice_rejected (bcrypt := demo_bcrypt) empty_db demo_db
           demo_user demo_user "salt" "pepper" 0 9 demo_oid demo_oid'
           (signup_response demo_oid)).
  - reflexivity.
  - reflexivity.
Defined.

Lemma concurrent_signups_any_schedule_witness :
  let '(a, b, db') :=
    run_signups (bcrypt := demo_bcrypt) [false; true; true; false; true]
      demo_seeded_db
      (AwaitFind demo_user "salt" 0 demo_oid)
      (AwaitFind demo_user "pepper" 1 demo_oid') in
  (db' = demo_seeded_db
   \/ db' = with_user demo_seeded_db
              (new_user demo_user "$demo$hunter2" 0 demo_oid)
   \/ db' = with_user demo_seeded_db
              (new_user demo_user "$demo$hunter2" 1 demo_oid'))
  /\ forall ra rb,
       outcome a = Some ra -> outcome b = Some rb ->
       (ra = Return (signup_response demo_oid)
        /\ (rb = RaiseHTTP user_already_exists \/ rb = Raise DuplicateKeyError)
        /\ db' = with_user demo_seeded_db
                   (new_user demo_user "$demo$hunter2" 0 demo_oid))
       \/ (rb = Return (signup_response demo_oid')
           /\ (ra = RaiseHTTP user_already_exists \/ ra = Raise DuplicateKeyError)
           /\ db' = with_user demo_seeded_db
                      (new_user demo_user "$demo$hunter2" 1 demo_oid')).
Proof.
  apply (concurrent_signups_any_schedule (bcrypt := demo_bcrypt)
           demo_seeded_db demo_user demo_user "salt" "pepper"
           "$demo$hunter2" "$demo$hunter2" 0 1 demo_oid demo_oid');
    reflexivity.
Defined.

Lemma concurrent_signup_race_without_index_witness :
  let '(a, b, db') :=
    run_signups (bcrypt := demo_bcrypt) [true; false; true; false] empty_db
      (AwaitFind demo_user "salt" 0 demo_oid)
      (AwaitFind demo_user "pepper" 1 demo_oid') in
  outcome a = Some (Return (signup_response demo_oid))
  /\ outcome b = Some (Return (signup_response demo_oid'))
  /\ documents (users db')
     = (documents (users empty_db)
          ++ [new_user demo_user "$demo$hunter2" 0 demo_oid;
              new_user demo_user "$demo$hunter2" 1 demo_oid'])%list.
Proof.
  apply (concurrent_signup_race_without_index (bcrypt := demo_bcrypt) empty_db
           demo_user demo_user "salt" "pepper" "$demo$hunter2" "$demo$hunter2"
           0 1 demo_oid demo_oid');
    try reflexivity.
  discriminate.
Defined.

Lemma setup_database_establishes_witness :
  In ["email"] (unique_indexes (users demo_seeded_db))
  /\ In ["personalDetails"; "email"]
        (unique_indexes (onboarding_profiles demo_seeded_db))
  /\ In ["language"] (unique_indexes (audio_urls demo_seeded_db))
  /\ documents (users demo_seeded_db) = documents (users empty_db)
  /\ documents (onboarding_profiles demo_seeded_db)
     = documents (onboarding_profiles empty_db)
  /\ (exists added,
        documents (audio_urls demo_seeded_db)
        = (documents (audio_urls empty_db) ++ added)%list
        /\ (List.length added <= 2)%nat)
  /\ find_one (audio_urls demo_seeded_db) (by_language "english") <> None
  /\ find_one (audio_urls demo_seeded_db) (by_language "arabic") <> None.
Proof.
  apply (setup_database_establishes (datetime := demo_datetime) empty_db
           demo_seeded_db 0 0 0 0 demo_oid demo_oid').
  reflexivity.
Defined.

Lemma setup_database_idempotent_witness :
  setup_database (datetime := demo_datetime) demo_seeded_db
    5 6 7 8 demo_oid' demo_oid = Return demo_seeded_db.
Proof.
  apply (setup_database_idempotent (datetime := demo_datetime) empty_db
           demo_seeded_db 0 0 0 0 demo_oid demo_oid').
  reflexivity.
Defined.

Lemma seeded_audio_lookup_witness :
  get_audio_url (pystr := demo_pystr) demo_seeded_db "ARABIC"
  = Return {| AudioResponse.language := "arabic";
              AudioResponse.audioUrl :=
                "https://example.com/audio/arabic_sample.mp3";
              AudioResponse.createdAt := isoformat (Datetime := demo_datetime) 0;
              AudioResponse.updatedAt := isoformat (Datetime := demo_datetime) 0 |}
  /\ http_status (get_audio_url (pystr := demo_pystr) demo_seeded_db "Klingon")
     = 404.
Proof.
  split.
  - apply (proj1 (proj2 (seeded_audio_lookup (datetime := demo_datetime)
                           (pystr := demo_pystr)
                           empty_db demo_seeded_db 0 0 0 0 demo_oid demo_oid'
                           "ARABIC" eq_refl eq_refl))).
    reflexivity.
  - apply (proj2 (proj2 (seeded_audio_lookup (datetime := demo_datetime)
                           (pystr := demo_pystr)
                           empty_db demo_seeded_db 0 0 0 0 demo_oid demo_oid'
                           "Klingon" eq_refl eq_refl)));
      vm_compute; discriminate.
Defined.

Lemma login_token_authenticates_witness :
  exists current,
    get_current_user (jose := demo_jose) demo_config demo_db
      (Token.access_token demo_tok) 120000000 = Return current
    /\ find_one (users demo_db) (by_email "Bob@example.com") = Some current
    /\ ObjectId_str (doc_id current) = Token.user_id demo_tok.
Proof.
  apply (login_token_authenticates (bcrypt := demo_bcrypt) (jose := demo_jose)
           demo_config (jose_laws := demo_jose_laws) demo_db
           (demo_login "Bob@example.com" "hunter2") 60000000 120000000 demo_tok).
  - repeat constructor. intros [].
  - repeat constructor.
  - reflexivity.
  - vm_compute. discriminate.
Defined.
